(** * Forwarding relay for thirdparty authorizations

    A shallow embedding of [src/domain/thirdpartyRequests/authorizations.ts]:
    the two exported operations [forwardPostAuthorization] (the Forwarder)
    and [forwardPostAuthorizationError] (the Error Escalator), with the
    collaborators they consume (endpoint directory, template renderer,
    outbound sender, logger, tracing spans) kept as an explicit environment.

    The operations are [async] functions that await one collaborator after
    the other; there is no fan-out, so a run is modelled as a sequential
    computation over the span store that either returns or throws, and that
    emits the list of calls it made. *)

From Stdlib Require Import Ascii.
From stdpp Require Import base option list sorting gmap strings.

Set Default Proof Using "Type".

(** ** Values *)

(** A JavaScript value that is either a string or [undefined], as obtained
    by indexing a dictionary ([headers[k]]). *)
Abbreviation JsStr := (option string).

(** [HapiUtil.Dictionary<string>]: own properties of a plain object.  A
    property can hold [undefined] (the object literal of the catch block
    stores [sourceDfspId] whatever it is), hence the [JsStr] values. *)
Abbreviation Headers := (gmap string (option string)).

(** [headers[k]]: the value of the property, [undefined] when it is absent. *)
Definition hget (headers : Headers) (k : string) : JsStr :=
  match headers !! k with
  | Some v => v
  | None => None
  end.

(** How a template literal prints such a value. *)
Definition js_show (v : JsStr) : string :=
  match v with
  | Some s => s
  | None => "undefined"
  end.

(** [interface PostAuthorizationPayload]. *)
Inductive PendingStatus := PENDING.

Record PostAuthorizationPayload := {
  challenge : string;
  value : string;
  consentId : string;
  sourceAccountId : string;
  status : PendingStatus
}.

(** A thrown [Error] that is not an [FSPIOPError]. *)
Record JsError := {
  errName : string;
  errMessage : string
}.

Record ApiErrorCode := {
  code : string;
  message : string
}.

(** The standardized error: a code, a message, optionally the cause and
    extensions. *)
Record FSPIOPError := {
  apiErrorCode : ApiErrorCode;
  fspiopMessage : string;
  cause : option JsError;
  extensions : list (string * string)
}.

(** What a [catch (err)] can receive. *)
Inductive Thrown :=
| Raw (e : JsError)
| Fspiop (e : FSPIOPError).

(** The wire form of a standardized error ([toApiErrorObject]). *)
Record ApiErrorObject := {
  errorCode : string;
  errorDescription : string;
  extensionList : list (string * string)
}.

(** The body handed to the outbound sender: the authorization for the
    forwarding hop, the serialized error for the escalation hop (the
    escalator's [payload] parameter is declared as
    [PostAuthorizationPayload] but receives the error object). *)
Inductive Body :=
| AuthorizationBody (p : PostAuthorizationPayload)
| ErrorBody (e : ApiErrorObject).

(** ** Tracing spans *)

(** The optional [span?: any] argument: an object without [getChild], or a
    span of the store. [None] is [undefined]. *)
Inductive SpanObj :=
| SpanWithoutGetChild
| SpanRef (id : nat).

(** Modelled from the spec: a span of the tracing SDK, which is not part
    of the sources.  Section 6 gives its contract: [getChild(name)] yields
    a span, [finish()] finishes it, [isFinished] tells whether it is.  The
    record keeps the parent, the number of [finish] calls received and the
    error status a finish on the error path attaches. *)
Record Span := {
  spanName : string;
  spanParent : nat;
  isFinished : bool;
  finishCalls : nat;
  spanError : option FSPIOPError
}.

(** The spans created so far; a span is named by its index. *)
Abbreviation SpanStore := (list Span).

(** ** Calls observed during a run *)

Inductive LogLevel := LogInfo | LogError.

(** One entry per call: of a collaborator, of [finish] on a span, and of
    the Error Escalator ([EvEscalate], with the arguments it received). *)
Inductive Event :=
| EvGetChild (parent : nat) (name : string) (child : nat)
| EvGetEndpoint (serviceUrl : string) (fsp : JsStr) (endpointType : string)
| EvRender (template : string) (ID : string)
| EvSendRequest (url : string) (headers : Headers)
    (source destination : JsStr) (method : string) (payload : Body)
    (responseType : string) (span : option nat)
| EvLogger (level : LogLevel) (msg : string)
| EvFinish (span : nat) (error : option FSPIOPError)
| EvEscalate (path : string) (headers : Headers)
    (transactionRequestId : string) (payload : Body) (span : option SpanObj).

(** ** The computation type *)

Inductive Result (A : Type) :=
| Ok (a : A)
| Throw (e : Thrown).
Arguments Ok {A} a.
Arguments Throw {A} e.

(** A run takes the span store, returns or throws, and yields the new
    store together with the calls it made, oldest first. *)
Definition M (A : Type) : Type :=
  SpanStore -> Result A * SpanStore * list Event.

Definition ret {A} (a : A) : M A := fun s => (Ok a, s, []).

Definition throw {A} (e : Thrown) : M A := fun s => (Throw e, s, []).

Definition bind {A B} (m : M A) (k : A -> M B) : M B :=
  fun s =>
    match m s with
    | (Ok a, s1, t1) =>
        match k a s1 with
        | (r, s2, t2) => (r, s2, t1 ++ t2)
        end
    | (Throw e, s1, t1) => (Throw e, s1, t1)
    end.

(** [try { body } catch (err) { handler }]. *)
Definition try_catch {A} (body : M A) (handler : Thrown -> M A) : M A :=
  fun s =>
    match body s with
    | (Ok a, s1, t1) => (Ok a, s1, t1)
    | (Throw e, s1, t1) =>
        match handler e s1 with
        | (r, s2, t2) => (r, s2, t1 ++ t2)
        end
    end.

Definition emit (e : Event) : M unit := fun s => (Ok tt, s, [e]).

Definition lift {A} (r : Result A) : M A := fun s => (r, s, []).

Declare Scope relay_scope.
Delimit Scope relay_scope with relay.
Notation "x <- c1 ;; c2" := (bind c1 (fun x => c2))
  (at level 100, c1 at next level, right associativity) : relay_scope.
Notation "c1 ;;; c2" := (bind c1 (fun _ => c2))
  (at level 100, right associativity) : relay_scope.
Local Open Scope relay_scope.

Definition outcome {A} (r : Result A * SpanStore * list Event) : Result A :=
  r.1.1.
Definition store {A} (r : Result A * SpanStore * list Event) : SpanStore :=
  r.1.2.
Definition calls {A} (r : Result A * SpanStore * list Event) : list Event :=
  r.2.

(** ** Configuration, constants and collaborators *)

(** [Config.ERROR_HANDLING]. *)
Record ErrorHandlingConfig := {
  includeCauseExtension : bool;
  truncateExtensions : bool
}.

(** The part of [~/shared/config] the two operations read. *)
Record ConfigT := {
  ENDPOINT_SERVICE_URL : string;
  ERROR_HANDLING : ErrorHandlingConfig
}.

(** The constants of [Enum] (central-services-shared) the operations use;
    their values are not part of this repository and stay parameters. *)
Record EnumT := {
  Headers_FSPIOP_SOURCE : string;
  Headers_FSPIOP_DESTINATION : string;
  Headers_FSPIOP_SWITCH_value : string;
  FspEndpointTypes_THIRDPARTY_TRANSACTIONS_AUTHORIZATIONS_POST : string;
  FspEndpointTypes_THIRDPARTY_CALLBACK_URL_TRANSACTION_REQUEST_AUTHORIZATIONS_PUT_ERROR : string;
  FspEndpointTemplates_THIRDPARTY_TRANSACTION_REQUEST_AUTHORIZATIONS_PUT_ERROR : string;
  RestMethods_POST : string;
  RestMethods_PUT : string;
  ResponseTypes_JSON : string
}.

(** The consumed interfaces.  Each answers a call by returning or throwing.
    The sender is handed the child span as request context; the source
    guards every [finish] with [isFinished], so the sender also tells
    whether it closed the span it was handed.  Its answer depends on the
    request, not on which span carries it. *)
Record Env := {
  Config : ConfigT;
  Enum : EnumT;
  INTERNAL_SERVER_ERROR : ApiErrorCode;
  getEndpoint : string -> JsStr -> string -> Result string;
  render : string -> string -> Result string;
  sendRequest : string -> Headers -> JsStr -> JsStr -> string -> Body ->
                string -> Result unit * bool;
  toApiErrorObject : FSPIOPError -> bool -> bool -> ApiErrorObject;
  inspect : string -> string;
  inspectError : Thrown -> string
}.

(** ** Literal placeholder substitution *)

(** Replaces every occurrence of [ph] in the template by [v], left to
    right; [skip] counts the characters of an occurrence still to drop. *)
Fixpoint substitute_from (skip : nat) (ph v t : string) : string :=
  match t with
  | EmptyString => EmptyString
  | String c t' =>
      match skip with
      | S k => substitute_from k ph v t'
      | O =>
          if String.prefix ph t
          then v +:+ substitute_from (String.length ph - 1) ph v t'
          else String c (substitute_from 0 ph v t')
      end
  end.

(** Whether the character occurs in the text. *)
Fixpoint occurs (c : ascii) (t : string) : bool :=
  match t with
  | EmptyString => false
  | String c' t' => if ascii_dec c c' then true else occurs c t'
  end.

(** Modelled from the spec: the substitution section 4.4 describes, the
    resource identifier put literally in the place of [{ID}].  This is
    the spec's reading of the renderer, not the renderer: the operations
    call the [render] of the environment ([Mustache.render], a library
    that is not part of the sources), and the repository writes its
    path templates with the tag [{{ID}}]. *)
Definition render_literal (template ID : string) : string :=
  substitute_from 0 "{ID}" ID template.

(** ** Error normalization *)

(** Modelled from the spec: [ReformatFSPIOPError], from
    central-services-error-handling, which is not part of the sources.
    Section 4.3: any raised failure becomes one standardized shape with a
    code and a message; an error that is already standardized is returned
    as it is (no double wrapping). *)
Definition ReformatFSPIOPError (E : Env) (err : Thrown) : FSPIOPError :=
  match err with
  | Fspiop e => e
  | Raw e =>
      {| apiErrorCode := INTERNAL_SERVER_ERROR E;
         fspiopMessage := errMessage e;
         cause := Some e;
         extensions := [] |}
  end.

(** ** Span operations *)

(** What calling a missing method throws (the text is the engine's). *)
Definition TypeError_getChild : JsError :=
  {| errName := "TypeError";
     errMessage := "span.getChild is not a function" |}.

(** [span?.getChild(name)]: [undefined] stays [undefined]; an object
    without the method makes the call throw; a span gets a fresh child. *)
Definition getChild (span : option SpanObj) (name : string) : M (option nat) :=
  match span with
  | None => ret None
  | Some SpanWithoutGetChild => throw (Raw TypeError_getChild)
  | Some (SpanRef p) =>
      fun s =>
        let c := length s in
        (Ok (Some c),
         s ++ [{| spanName := name; spanParent := p; isFinished := false;
                  finishCalls := 0; spanError := None |}],
         [EvGetChild p name c])
  end.

(** [childSpan.isFinished]. *)
Definition span_isFinished (s : SpanStore) (c : nat) : bool :=
  match s !! c with
  | Some sp => isFinished sp
  | None => false
  end.

Definition close (error : option FSPIOPError) (sp : Span) : Span :=
  {| spanName := spanName sp; spanParent := spanParent sp;
     isFinished := true; finishCalls := S (finishCalls sp);
     spanError := match error with Some e => Some e | None => spanError sp end |}.

(** [childSpan.finish()]. *)
Definition finish (c : nat) : M unit :=
  fun s => (Ok tt, alter (close None) c s, [EvFinish c None]).

(** Modelled from the spec: [finishChildSpan] of [~/shared/util], which is
    not part of the sources; it finishes the span with error status. *)
Definition finishChildSpan (fspiopError : FSPIOPError) (c : nat) : M unit :=
  fun s =>
    (Ok tt, alter (close (Some fspiopError)) c s,
     [EvFinish c (Some fspiopError)]).

(** [if (childSpan && !childSpan.isFinished) { k(childSpan) }]. *)
Definition if_not_finished (childSpan : option nat) (k : nat -> M unit) : M unit :=
  fun s =>
    match childSpan with
    | Some c => if negb (span_isFinished s c) then k c s else ret tt s
    | None => ret tt s
    end.

Section Relay.

Variable E : Env.

(** ** Collaborator calls *)

Definition Logger_info (msg : string) : M unit := emit (EvLogger LogInfo msg).
Definition Logger_error (msg : string) : M unit := emit (EvLogger LogError msg).

Definition Util_Endpoints_getEndpoint
    (serviceUrl : string) (fsp : JsStr) (endpointType : string) : M string :=
  emit (EvGetEndpoint serviceUrl fsp endpointType) ;;;
  lift (getEndpoint E serviceUrl fsp endpointType).

Definition Mustache_render (template ID : string) : M string :=
  emit (EvRender template ID) ;;;
  lift (render E template ID).

(** The sender's answer; when it says so, the span it was handed has been
    finished by the time it answers. *)
Definition Util_Request_sendRequest
    (url : string) (headers : Headers) (source destination : JsStr)
    (method : string) (payload : Body) (responseType : string)
    (span : option nat) : M unit :=
  emit (EvSendRequest url headers source destination method payload
          responseType span) ;;;
  let answer :=
    sendRequest E url headers source destination method payload responseType in
  (fun s =>
     match span with
     | Some c => if answer.2 then (Ok tt, alter (close None) c s, [])
                 else ret tt s
     | None => ret tt s
     end) ;;;
  lift answer.1.

(** ** The Error Escalator *)

(** The first entry of its trace is the record of the call itself, with
    the arguments received, as a spy on the exported function sees it. *)
Definition forwardPostAuthorizationError
    (path : string) (headers : Headers) (transactionRequestId : string)
    (payload : Body) (span : option SpanObj) : M unit :=
  emit (EvEscalate path headers transactionRequestId payload span) ;;;
  childSpan <- getChild span "forwardPostAuthorizationError" ;;
  let sourceDfspId := hget headers (Headers_FSPIOP_SOURCE (Enum E)) in
  let destinationDfspId := hget headers (Headers_FSPIOP_DESTINATION (Enum E)) in
  let endpointType :=
    FspEndpointTypes_THIRDPARTY_CALLBACK_URL_TRANSACTION_REQUEST_AUTHORIZATIONS_PUT_ERROR (Enum E) in
  try_catch
    (endpoint <- Util_Endpoints_getEndpoint
                   (ENDPOINT_SERVICE_URL (Config E))
                   destinationDfspId
                   endpointType ;;
     Logger_info ("authorizations::forwardPostAuthorizationError - Resolved destinationDfsp endpoint: "
                  +:+ endpointType +:+ " for transactionRequest"
                  +:+ transactionRequestId +:+ " to: " +:+ inspect E endpoint) ;;;
     url <- Mustache_render (endpoint +:+ path) transactionRequestId ;;
     Logger_info ("authorizations::forwardPostAuthorizationError - Forwarding thirdpartyTransaction authorization error callback to endpoint: "
                  +:+ url) ;;;
     Util_Request_sendRequest
       url
       headers
       sourceDfspId
       destinationDfspId
       (RestMethods_PUT (Enum E))
       payload
       (ResponseTypes_JSON (Enum E))
       childSpan ;;;
     Logger_info ("authorizations::forwardPostAuthorization - Forwarded thirdpartyTransaction authorization error callback: "
                  +:+ transactionRequestId +:+ " from " +:+ js_show sourceDfspId
                  +:+ " to " +:+ js_show destinationDfspId) ;;;
     if_not_finished childSpan finish)
    (fun err =>
     Logger_error ("authorizations::forwardPostAuthorizationError - Error forwarding thirdpartyTransaction authorization error to endpoint: "
                   +:+ inspectError E err) ;;;
     let fspiopError := ReformatFSPIOPError E err in
     if_not_finished childSpan (finishChildSpan fspiopError) ;;;
     throw (Fspiop fspiopError)).

(** ** The Forwarder *)

(** The object literal of the catch block:
    [{ ...headers, 'fspiop-source': SWITCH.value, 'fspiop-destination': sourceDfspId }]. *)
Definition errorHeaders (headers : Headers) (sourceDfspId : JsStr) : Headers :=
  <["fspiop-destination" := sourceDfspId]>
    (<["fspiop-source" := Some (Headers_FSPIOP_SWITCH_value (Enum E))]> headers).

Definition forwardPostAuthorization
    (path : string) (headers : Headers) (transactionRequestId : string)
    (payload : PostAuthorizationPayload) (span : option SpanObj) : M unit :=
  childSpan <- getChild span "forwardPostAuthorization" ;;
  let sourceDfspId := hget headers (Headers_FSPIOP_SOURCE (Enum E)) in
  let destinationDfspId := hget headers (Headers_FSPIOP_DESTINATION (Enum E)) in
  let endpointType :=
    FspEndpointTypes_THIRDPARTY_TRANSACTIONS_AUTHORIZATIONS_POST (Enum E) in
  try_catch
    (endpoint <- Util_Endpoints_getEndpoint
                   (ENDPOINT_SERVICE_URL (Config E))
                   destinationDfspId
                   endpointType ;;
     Logger_info ("authorizations::forwardPostAuthorization - Resolved destination party "
                  +:+ endpointType +:+ " endpoint for thirdpartyTransaction: "
                  +:+ transactionRequestId +:+ " to: " +:+ inspect E endpoint) ;;;
     url <- Mustache_render (endpoint +:+ path) transactionRequestId ;;
     Logger_info ("authorizations::forwardPostAuthorization - Forwarding authorization to endpoint: "
                  +:+ url) ;;;
     Util_Request_sendRequest
       url
       headers
       sourceDfspId
       destinationDfspId
       (RestMethods_POST (Enum E))
       (AuthorizationBody payload)
       (ResponseTypes_JSON (Enum E))
       childSpan ;;;
     Logger_info ("authorizations::forwardPostAuthorization - Forwarded thirdpartyTransaction authorization: "
                  +:+ transactionRequestId +:+ " from " +:+ js_show sourceDfspId
                  +:+ " to " +:+ js_show destinationDfspId) ;;;
     if_not_finished childSpan finish)
    (fun err =>
     Logger_error ("authorizations::forwardPostAuthorization - Error forwarding thirdpartyTransaction authorization to endpoint: "
                   +:+ inspectError E err) ;;;
     let errorHeaders := errorHeaders headers sourceDfspId in
     let fspiopError := ReformatFSPIOPError E err in
     forwardPostAuthorizationError
       (FspEndpointTemplates_THIRDPARTY_TRANSACTION_REQUEST_AUTHORIZATIONS_PUT_ERROR (Enum E))
       errorHeaders
       transactionRequestId
       (ErrorBody (toApiErrorObject E fspiopError
                     (includeCauseExtension (ERROR_HANDLING (Config E)))
                     (truncateExtensions (ERROR_HANDLING (Config E)))))
       (SpanRef <$> childSpan) ;;;
     if_not_finished childSpan (finishChildSpan fspiopError) ;;;
     throw (Fspiop fspiopError)).

End Relay.

(** ** What a run is observed by *)

Definition is_escalate (e : Event) : bool :=
  match e with EvEscalate _ _ _ _ _ => true | _ => false end.

Definition is_send (e : Event) : bool :=
  match e with EvSendRequest _ _ _ _ _ _ _ _ => true | _ => false end.

Definition is_finish_of (c : nat) (e : Event) : bool :=
  match e with EvFinish c' _ => Nat.eqb c c' | _ => false end.

(** The calls of the Error Escalator made during a run. *)
Definition escalations (t : list Event) : list Event := List.filter is_escalate t.

(** The outbound requests issued during a run. *)
Definition sends (t : list Event) : list Event := List.filter is_send t.

(** The [finish] calls the two operations made on span [c]. *)
Definition finishes (c : nat) (t : list Event) : list Event :=
  List.filter (is_finish_of c) t.

(** The child span an operation derives when it is entered with store [s]. *)
Definition childOf (span : option SpanObj) (s : SpanStore) : option nat :=
  match span with
  | Some (SpanRef _) => Some (length s)
  | _ => None
  end.

(** What the awaited steps of a try block yield, from the collaborators'
    answers: the first failure among resolution, rendering and sending,
    and whether the sender closed the span. *)
Definition attempt (E : Env) (destinationDfspId : JsStr)
    (endpointType path transactionRequestId : string)
    (send : string -> Result unit * bool) : Result unit * bool :=
  match getEndpoint E (ENDPOINT_SERVICE_URL (Config E)) destinationDfspId
          endpointType with
  | Throw e => (Throw e, false)
  | Ok endpoint =>
      match render E (endpoint +:+ path) transactionRequestId with
      | Throw e => (Throw e, false)
      | Ok url => send url
      end
  end.

Definition forwardAttempt (E : Env) (path : string) (headers : Headers)
    (transactionRequestId : string) (payload : PostAuthorizationPayload)
    : Result unit * bool :=
  attempt E (hget headers (Headers_FSPIOP_DESTINATION (Enum E)))
    (FspEndpointTypes_THIRDPARTY_TRANSACTIONS_AUTHORIZATIONS_POST (Enum E))
    path transactionRequestId
    (fun url =>
       sendRequest E url headers
         (hget headers (Headers_FSPIOP_SOURCE (Enum E)))
         (hget headers (Headers_FSPIOP_DESTINATION (Enum E)))
         (RestMethods_POST (Enum E)) (AuthorizationBody payload)
         (ResponseTypes_JSON (Enum E))).

Definition escalateAttempt (E : Env) (path : string) (headers : Headers)
    (transactionRequestId : string) (payload : Body) : Result unit * bool :=
  attempt E (hget headers (Headers_FSPIOP_DESTINATION (Enum E)))
    (FspEndpointTypes_THIRDPARTY_CALLBACK_URL_TRANSACTION_REQUEST_AUTHORIZATIONS_PUT_ERROR (Enum E))
    path transactionRequestId
    (fun url =>
       sendRequest E url headers
         (hget headers (Headers_FSPIOP_SOURCE (Enum E)))
         (hget headers (Headers_FSPIOP_DESTINATION (Enum E)))
         (RestMethods_PUT (Enum E)) payload
         (ResponseTypes_JSON (Enum E))).

(** The arguments of the escalation a forwarding failure [err] triggers. *)
Definition escalationPath (E : Env) : string :=
  FspEndpointTemplates_THIRDPARTY_TRANSACTION_REQUEST_AUTHORIZATIONS_PUT_ERROR (Enum E).

Definition escalationHeaders (E : Env) (headers : Headers) : Headers :=
  errorHeaders E headers (hget headers (Headers_FSPIOP_SOURCE (Enum E))).

Definition escalationBody (E : Env) (err : Thrown) : Body :=
  ErrorBody (toApiErrorObject E (ReformatFSPIOPError E err)
               (includeCauseExtension (ERROR_HANDLING (Config E)))
               (truncateExtensions (ERROR_HANDLING (Config E)))).

Definition escalationAttempt (E : Env) (headers : Headers)
    (transactionRequestId : string) (err : Thrown) : Result unit * bool :=
  escalateAttempt E (escalationPath E) (escalationHeaders E headers)
    transactionRequestId (escalationBody E err).

(** ** The summary of a run *)

Definition is_ok {A} (r : Result A) : bool :=
  match r with Ok _ => true | Throw _ => false end.

(** What an operation's catch block raises for the failure it caught. *)
Definition normalized (E : Env) (r : Result unit) : Result unit :=
  match r with
  | Ok _ => Ok tt
  | Throw e => Throw (Fspiop (ReformatFSPIOPError E e))
  end.

(** The error status a span ends with: set by the catch block, unless the
    sender had closed the span already. *)
Definition errorStatus (E : Env) (a : Result unit * bool) : option FSPIOPError :=
  match a with
  | (Throw e, false) => Some (ReformatFSPIOPError E e)
  | _ => None
  end.

(** The spans an escalator run adds to the store. *)
Definition escalatorSpans (E : Env) (span : option SpanObj)
    (a : Result unit * bool) : list Span :=
  match span with
  | Some (SpanRef p) =>
      [{| spanName := "forwardPostAuthorizationError"; spanParent := p;
          isFinished := true; finishCalls := 1;
          spanError := errorStatus E a |}]
  | _ => []
  end.

(** What a forwarder run raises or returns. *)
Definition forwarderOutcome (E : Env) (headers : Headers)
    (transactionRequestId : string) (a : Result unit * bool) : Result unit :=
  match a.1 with
  | Ok _ => Ok tt
  | Throw err =>
      match (escalationAttempt E headers transactionRequestId err).1 with
      | Ok _ => Throw (Fspiop (ReformatFSPIOPError E err))
      | Throw err' => Throw (Fspiop (ReformatFSPIOPError E err'))
      end
  end.

(** The spans a forwarder run adds to the store. *)
Definition forwarderSpans (E : Env) (headers : Headers)
    (transactionRequestId : string) (span : option SpanObj) (s : SpanStore)
    (a : Result unit * bool) : list Span :=
  match span with
  | Some (SpanRef p) =>
      match a with
      | (Ok _, _) =>
          [{| spanName := "forwardPostAuthorization"; spanParent := p;
              isFinished := true; finishCalls := 1; spanError := None |}]
      | (Throw err, closed) =>
          let ea := escalationAttempt E headers transactionRequestId err in
          {| spanName := "forwardPostAuthorization"; spanParent := p;
             isFinished := closed || is_ok ea.1;
             finishCalls := if closed || is_ok ea.1 then 1 else 0;
             spanError := if closed then None
                          else if is_ok ea.1
                               then Some (ReformatFSPIOPError E err)
                               else None |}
          :: escalatorSpans E (Some (SpanRef (length s))) ea
      end
  | _ => []
  end.

(** The outbound request of an attempt, if it gets as far as sending. *)
Definition sentBy (E : Env) (endpointType method path : string)
    (headers : Headers) (transactionRequestId : string) (payload : Body)
    (childSpan : option nat) : list Event :=
  match getEndpoint E (ENDPOINT_SERVICE_URL (Config E))
          (hget headers (Headers_FSPIOP_DESTINATION (Enum E))) endpointType with
  | Ok endpoint =>
      match render E (endpoint +:+ path) transactionRequestId with
      | Ok url =>
          [EvSendRequest url headers
             (hget headers (Headers_FSPIOP_SOURCE (Enum E)))
             (hget headers (Headers_FSPIOP_DESTINATION (Enum E)))
             method payload (ResponseTypes_JSON (Enum E)) childSpan]
      | Throw _ => []
      end
  | Throw _ => []
  end.

Definition escalatorSends (E : Env) (path : string) (headers : Headers)
    (transactionRequestId : string) (payload : Body)
    (childSpan : option nat) : list Event :=
  sentBy E
    (FspEndpointTypes_THIRDPARTY_CALLBACK_URL_TRANSACTION_REQUEST_AUTHORIZATIONS_PUT_ERROR (Enum E))
    (RestMethods_PUT (Enum E)) path headers transactionRequestId payload
    childSpan.

Definition forwarderSends (E : Env) (path : string) (headers : Headers)
    (transactionRequestId : string) (payload : PostAuthorizationPayload)
    (childSpan : option nat) : list Event :=
  sentBy E
    (FspEndpointTypes_THIRDPARTY_TRANSACTIONS_AUTHORIZATIONS_POST (Enum E))
    (RestMethods_POST (Enum E)) path headers transactionRequestId
    (AuthorizationBody payload) childSpan.


(** ** A sample deployment *)

Module Sample.

Definition enum : EnumT := {|
  Headers_FSPIOP_SOURCE := "fspiop-source";
  Headers_FSPIOP_DESTINATION := "fspiop-destination";
  Headers_FSPIOP_SWITCH_value := "switch";
  FspEndpointTypes_THIRDPARTY_TRANSACTIONS_AUTHORIZATIONS_POST :=
    "THIRDPARTY_TRANSACTIONS_AUTHORIZATIONS_POST";
  FspEndpointTypes_THIRDPARTY_CALLBACK_URL_TRANSACTION_REQUEST_AUTHORIZATIONS_PUT_ERROR :=
    "THIRDPARTY_CALLBACK_URL_TRANSACTION_REQUEST_AUTHORIZATIONS_PUT_ERROR";
  FspEndpointTemplates_THIRDPARTY_TRANSACTION_REQUEST_AUTHORIZATIONS_PUT_ERROR :=
    "/thirdpartyRequests/transactions/{ID}/authorizations/error";
  RestMethods_POST := "POST";
  RestMethods_PUT := "PUT";
  ResponseTypes_JSON := "json"
|}.

Definition config : ConfigT := {|
  ENDPOINT_SERVICE_URL := "http://central-ledger";
  ERROR_HANDLING :=
    {| includeCauseExtension := true; truncateExtensions := true |}
|}.

Definition networkError : Thrown :=
  Raw {| errName := "Error"; errMessage := "ECONNREFUSED" |}.

Definition noErrorEndpoint : Thrown :=
  Raw {| errName := "Error"; errMessage := "Cannot find endpoint" |}.

(** The directory knows every participant's endpoints, except that the
    error-callback endpoint is missing when [escalationOk] is off; the
    forwarding POST is refused when [sendOk] is off; the sender closes the
    span it is handed when [senderCloses] is on. *)
Definition env (sendOk escalationOk senderCloses : bool) : Env := {|
  Config := config;
  Enum := enum;
  INTERNAL_SERVER_ERROR :=
    {| code := "2001"; message := "Internal server error" |};
  getEndpoint := fun _ fsp endpointType =>
    match fsp with
    | Some p =>
        if String.eqb endpointType
             "THIRDPARTY_CALLBACK_URL_TRANSACTION_REQUEST_AUTHORIZATIONS_PUT_ERROR"
           && negb escalationOk
        then Throw noErrorEndpoint
        else Ok ("http://" +:+ p)
    | None => Throw noErrorEndpoint
    end;
  render := fun template ID => Ok (render_literal template ID);
  sendRequest := fun _ _ _ _ method _ _ =>
    (if String.eqb method "POST" && negb sendOk
     then Throw networkError else Ok tt,
     senderCloses);
  toApiErrorObject := fun e _ _ =>
    {| errorCode := code (apiErrorCode e);
       errorDescription := fspiopMessage e;
       extensionList := extensions e |};
  inspect := fun s => s;
  inspectError := fun e =>
    match e with
    | Raw r => errMessage r
    | Fspiop f => fspiopMessage f
    end
|}.

Definition headers : gmap string (option string) :=
  <["fspiop-source" := Some "pispA"]>
    (<["fspiop-destination" := Some "dfspA"]>
       (<["content-type" := Some "application/json"]> ∅)).

Definition payload : PostAuthorizationPayload := {|
  challenge := "c1";
  value := "v1";
  consentId := "cs1";
  sourceAccountId := "acc1";
  status := PENDING
|}.

Definition path : string :=
  "/thirdpartyRequests/transactions/{ID}/authorizations".

Definition transactionRequestId : string :=
  "a5bbfd51-d9fc-4084-961a-c2c2221a31e0".

(** The store holds the inbound request's span, at index 0. *)
Definition inbound : list Span :=
  [{| spanName := "inbound"; spanParent := 0; isFinished := false;
      finishCalls := 0; spanError := None |}].

Definition forward (sendOk escalationOk senderCloses : bool) :=
  forwardPostAuthorization (env sendOk escalationOk senderCloses)
    path headers transactionRequestId payload (Some (SpanRef 0)) inbound.

End Sample.

(** ** Further observations of a run *)

Definition is_getEndpoint (e : Event) : bool :=
  match e with EvGetEndpoint _ _ _ => true | _ => false end.

Definition is_logged_error (e : Event) : bool :=
  match e with EvLogger LogError _ => true | _ => false end.

(** The endpoint lookups made during a run. *)
Definition resolutions (t : list Event) : list Event :=
  List.filter is_getEndpoint t.

(** The [Logger.error] entries of a run. *)
Definition errorsLogged (t : list Event) : list Event :=
  List.filter is_logged_error t.

(** The rank of a step of one hop: resolving, rendering, sending,
    finishing the span.  Other entries have none. *)
Definition stage (e : Event) : option nat :=
  match e with
  | EvGetEndpoint _ _ _ => Some 0
  | EvRender _ _ => Some 1
  | EvSendRequest _ _ _ _ _ _ _ _ => Some 2
  | EvFinish _ _ => Some 3
  | _ => None
  end.

(** The steps of a run, in the order they were taken. *)
Definition stages (t : list Event) : list nat := omap stage t.

(** Requests that lack a routing header. *)
Module Edge.

Definition noSource : gmap string (option string) :=
  <["fspiop-destination" := Some "dfspA"]> ∅.

Definition noDestination : gmap string (option string) :=
  <["fspiop-source" := Some "pispA"]> ∅.

End Edge.

(** The span a request was handed as context, if any. *)
Definition carried_span (e : Event) : option nat :=
  match e with
  | EvSendRequest _ _ _ _ _ _ _ span => span
  | _ => None
  end.

(** ** The renderer's calls *)

Definition is_render (e : Event) : bool :=
  match e with EvRender _ _ => true | _ => false end.

(** The calls of the renderer made during a run. *)
Definition renders (t : list Event) : list Event := List.filter is_render t.

(** The call of the renderer a hop makes, if its lookup resolves. *)
Definition renderedBy (E : Env) (endpointType path : string)
    (headers : Headers) (transactionRequestId : string) : list Event :=
  match getEndpoint E (ENDPOINT_SERVICE_URL (Config E))
          (hget headers (Headers_FSPIOP_DESTINATION (Enum E))) endpointType with
  | Ok endpoint => [EvRender (endpoint +:+ path) transactionRequestId]
  | Throw _ => []
  end.

(** A deployment whose templates are written the way the repository
    writes them, with the tag [{{ID}}] (the test of the transactions
    error handler expects '/thirdpartyRequests/transactions/{{ID}}/error'),
    and whose renderer fills that tag and leaves every other text,
    single braces included, as it is. *)
Module Tagged.

Definition render_tag (template ID : string) : string :=
  substitute_from 0 "{{ID}}" ID template.

Definition path : string :=
  "/thirdpartyRequests/transactions/{{ID}}/authorizations".

Definition enum : EnumT := {|
  Headers_FSPIOP_SOURCE := "fspiop-source";
  Headers_FSPIOP_DESTINATION := "fspiop-destination";
  Headers_FSPIOP_SWITCH_value := "switch";
  FspEndpointTypes_THIRDPARTY_TRANSACTIONS_AUTHORIZATIONS_POST :=
    "THIRDPARTY_TRANSACTIONS_AUTHORIZATIONS_POST";
  FspEndpointTypes_THIRDPARTY_CALLBACK_URL_TRANSACTION_REQUEST_AUTHORIZATIONS_PUT_ERROR :=
    "THIRDPARTY_CALLBACK_URL_TRANSACTION_REQUEST_AUTHORIZATIONS_PUT_ERROR";
  FspEndpointTemplates_THIRDPARTY_TRANSACTION_REQUEST_AUTHORIZATIONS_PUT_ERROR :=
    "/thirdpartyRequests/transactions/{{ID}}/authorizations/error";
  RestMethods_POST := "POST";
  RestMethods_PUT := "PUT";
  ResponseTypes_JSON := "json"
|}.

(** Every lookup resolves and every request is accepted. *)
Definition env : Env := {|
  Config := Sample.config;
  Enum := enum;
  INTERNAL_SERVER_ERROR :=
    {| code := "2001"; message := "Internal server error" |};
  getEndpoint := getEndpoint (Sample.env true true false);
  render := fun template ID => Ok (render_tag template ID);
  sendRequest := sendRequest (Sample.env true true false);
  toApiErrorObject := toApiErrorObject (Sample.env true true false);
  inspect := fun s => s;
  inspectError := inspectError (Sample.env true true false)
|}.

End Tagged.

(** * Properties *)

(** ** The span store *)

Section StoreFacts.

Context (s : list Span).

Lemma span_isFinished_new x tl :
  span_isFinished (s ++ x :: tl) (length s) = isFinished x.
Proof. unfold span_isFinished. by rewrite list_lookup_middle. Qed.

Lemma alter_new f x tl : alter f (length s) (s ++ x :: tl) = s ++ f x :: tl.
Proof.
  replace (length s) with (length s + 0) by lia.
  by rewrite alter_app_r.
Qed.

Lemma lookup_new x tl : (s ++ x :: tl) !! length s = Some x.
Proof. by apply list_lookup_middle. Qed.

Lemma lookup_new_next x y tl : (s ++ x :: y :: tl) !! S (length s) = Some y.
Proof.
  replace (s ++ x :: y :: tl) with ((s ++ [x]) ++ y :: tl)
    by (by rewrite <- app_assoc).
  apply list_lookup_middle. rewrite length_app. simpl. lia.
Qed.

End StoreFacts.

(** ** Symbolic execution of a run *)

Arguments errorHeaders : simpl never.

(** Case analysis on the answer of the next collaborator. *)
Ltac answer :=
  match goal with
  | |- context [getEndpoint ?E ?a ?b ?c] =>
      destruct (getEndpoint E a b c) eqn:?
  | |- context [render ?E ?a ?b] => destruct (render E a b) eqn:?
  | |- context [sendRequest ?E ?u ?h ?a ?b ?m ?p ?r] =>
      destruct (sendRequest E u h a b m p r) as [[[]|?] []] eqn:?
  end.

Ltac run :=
  repeat first
    [ progress rewrite ?span_isFinished_new, ?alter_new, ?app_nil_r
    | progress cbn -[String.append forwardPostAuthorizationError]
    | answer ].

Ltac unfold_run :=
  unfold try_catch, bind, Util_Endpoints_getEndpoint, Mustache_render,
    Util_Request_sendRequest, Logger_info, Logger_error, emit, lift, ret,
    throw, if_not_finished, finish, finishChildSpan, getChild, outcome,
    store, calls, escalations, sends, finishes, attempt.

Lemma finishes_one c c' e : length (List.filter (is_finish_of c) [EvFinish c' e]) ≤ 1.
Proof. cbn. destruct (c =? c'); cbn; lia. Qed.

(** ** The Error Escalator, run by run *)

Lemma escalator_run E path headers id payload span s :
  span ≠ Some SpanWithoutGetChild →
  let r := forwardPostAuthorizationError E path headers id payload span s in
  let a := escalateAttempt E path headers id payload in
  outcome r = normalized E a.1 ∧
  store r = s ++ escalatorSpans E span a ∧
  escalations (calls r) = [EvEscalate path headers id payload span] ∧
  sends (calls r) =
    escalatorSends E path headers id payload (childOf span s) ∧
  (∀ c, length (finishes c (calls r)) ≤ 1) ∧
  (∀ c, c < length s → finishes c (calls r) = []).
Proof.
  intros Hspan.
  unfold forwardPostAuthorizationError, escalateAttempt, escalatorSends, sentBy.
  unfold_run.
  destruct span as [[|p]|]; [done| |]; run;
    (split; [done|]); (split; [done|]); (split; [done|]);
    (split; [done|]); split; intros c; try apply finishes_one; try (cbn; lia);
    intros Hc; try done; cbn;
    destruct (c =? length s) eqn:Heq; try done;
    apply Nat.eqb_eq in Heq; lia.
Qed.

(** ** The Forwarder, run by run *)

(** The nested escalator run is replaced by its summary. *)
Ltac escalate :=
  match goal with
  | |- context [forwardPostAuthorizationError ?E ?p ?h ?i ?b ?sp ?s] =>
      let H := fresh "Hrun" in
      pose proof (escalator_run E p h i b sp s ltac:(done)) as H;
      cbv zeta in H; unfold outcome, store, calls in H;
      destruct (forwardPostAuthorizationError E p h i b sp s) as [[? ?] ?];
      cbn [fst snd] in H; rewrite ?length_app in H; cbn [length] in H;
      destruct H as (-> & -> & ? & ? & ? & ?)
  end.

Lemma forwarder_run E path headers id payload span s :
  span ≠ Some SpanWithoutGetChild →
  let r := forwardPostAuthorization E path headers id payload span s in
  let a := forwardAttempt E path headers id payload in
  outcome r = forwarderOutcome E headers id a ∧
  store r = s ++ forwarderSpans E headers id span s a ∧
  escalations (calls r) =
    match a.1 with
    | Ok _ => []
    | Throw err =>
        [EvEscalate (escalationPath E) (escalationHeaders E headers) id
           (escalationBody E err) (SpanRef <$> childOf span s)]
    end ∧
  sends (calls r) =
    forwarderSends E path headers id payload (childOf span s) ++
    match a.1 with
    | Ok _ => []
    | Throw err =>
        escalatorSends E (escalationPath E) (escalationHeaders E headers) id
          (escalationBody E err) (S <$> childOf span s)
    end ∧
  (∀ c, length (finishes c (calls r)) ≤ 1) ∧
  match a with
  | (Throw err, false) =>
      is_ok (escalationAttempt E headers id err).1 = true →
      is_Some (childOf span s) →
      last (calls r) =
        Some (EvFinish (length s) (Some (ReformatFSPIOPError E err)))
  | _ => True
  end.
Proof.
  intros Hspan.
  unfold forwardPostAuthorization, forwardAttempt, forwarderOutcome,
    forwarderSpans, escalationAttempt, escalationHeaders, escalationBody,
    escalationPath, forwarderSends, sentBy.
  unfold_run.
  destruct span as [[|p]|]; [done| |]; run.
  all: try escalate.
  all: try match goal with
       | |- context [escalateAttempt ?E ?p ?h ?i ?b] =>
           destruct (escalateAttempt E p h i b) as [[[]|?] []]
       end.
  all: unfold normalized, escalatorSpans, errorStatus; rewrite <- ?app_assoc; run.
  all: unfold escalations, sends, finishes in *.
  all: rewrite ?List.filter_app; cbn.
  all: repeat match goal with
         | H : List.filter is_escalate ?l = _ |- _ => rewrite H; clear H
         | H : List.filter is_send ?l = _ |- _ => rewrite H; clear H
         end.
  all: cbn [childOf]; rewrite ?app_nil_r, ?length_app.
  all: cbn [length]; rewrite ?Nat.add_1_r.
  all: (split; [done|]); (split; [done|]); (split; [done|]).
  all: (split; [done|]).
  all: split;
    [ intros c; rewrite ?List.filter_app, ?length_app; cbn;
      destruct (c =? length s) eqn:Heq; cbn;
      [ apply Nat.eqb_eq in Heq; subst c;
        try match goal with
          | H : ∀ c, c < _ → List.filter _ _ = [] |- _ =>
              rewrite (H (length s)) by lia
          end; cbn; try lia
      | try match goal with
          | H : ∀ c, length (List.filter (is_finish_of c) _) ≤ 1 |- _ =>
              specialize (H c)
          end; try lia ]
    | try done; intros; try discriminate;
      rewrite ?last_cons, ?last_snoc; done ].
  all: auto.
Qed.

(** ** Error normalization *)

(** C9. Normalizing an already normalized error returns it unchanged:
    [normalize (normalize e) = normalize e] for every thrown value [e], so
    no catch site wraps a failure twice. *)
Theorem ReformatFSPIOPError_idempotent E (e : Thrown) :
  ReformatFSPIOPError E (Fspiop (ReformatFSPIOPError E e)) =
  ReformatFSPIOPError E e.
Proof. by destruct e. Qed.

(** ** A span object without [getChild] *)

(** C7. When the span argument is present but has no [getChild], both
    operations raise the raw [TypeError] before their try block is
    entered: the store is untouched, no collaborator is called (the
    escalator's trace holds nothing but the record of its own call), and
    what is raised is not a normalized error. *)
Theorem malformed_span_raises_before_try
    E path headers id (authorization : PostAuthorizationPayload)
    (payload : Body) (s : SpanStore) :
  forwardPostAuthorization E path headers id authorization
    (Some SpanWithoutGetChild) s =
    (Throw (Raw TypeError_getChild), s, []) ∧
  forwardPostAuthorizationError E path headers id payload
    (Some SpanWithoutGetChild) s =
    (Throw (Raw TypeError_getChild), s,
     [EvEscalate path headers id payload (Some SpanWithoutGetChild)]).
Proof. split; reflexivity. Qed.

(** ** The reversed headers *)

Section ErrorHeaders.

Context (E : Env) (headers : Headers) (sourceDfspId : JsStr).

Lemma errorHeaders_source :
  errorHeaders E headers sourceDfspId !! "fspiop-source" =
  Some (Some (Headers_FSPIOP_SWITCH_value (Enum E))).
Proof.
  unfold errorHeaders.
  rewrite lookup_insert_ne by done. apply lookup_insert_eq.
Qed.

Lemma errorHeaders_destination :
  errorHeaders E headers sourceDfspId !! "fspiop-destination" =
  Some sourceDfspId.
Proof. unfold errorHeaders. apply lookup_insert_eq. Qed.

Lemma errorHeaders_other k :
  k ≠ "fspiop-source" → k ≠ "fspiop-destination" →
  errorHeaders E headers sourceDfspId !! k = headers !! k.
Proof.
  intros Hs Hd. unfold errorHeaders.
  by rewrite !lookup_insert_ne.
Qed.

End ErrorHeaders.

(** ** Escalation after a forwarding failure *)

(** C3. A failure caught by the Forwarder makes it call the Error
    Escalator exactly once, with the error-callback path template, the
    reversed headers (the original ones with [fspiop-source] set to the
    switch and [fspiop-destination] to the original source, every other
    field kept), the same transaction request id, the normalized failure
    serialized by [toApiErrorObject] under the two ERROR_HANDLING flags,
    and the Forwarder's own child span (the span named
    forwardPostAuthorization it derived from its parent); a successful
    forward makes no such call. *)
Theorem escalation_exactly_once_per_failure
    E path headers id payload span (s : SpanStore) :
  span ≠ Some SpanWithoutGetChild →
  let r := forwardPostAuthorization E path headers id payload span s in
  match (forwardAttempt E path headers id payload).1 with
  | Throw err =>
      ∃ h : Headers,
        escalations (calls r) =
          [EvEscalate
             (FspEndpointTemplates_THIRDPARTY_TRANSACTION_REQUEST_AUTHORIZATIONS_PUT_ERROR (Enum E))
             h
             id
             (ErrorBody
                (toApiErrorObject E (ReformatFSPIOPError E err)
                   (includeCauseExtension (ERROR_HANDLING (Config E)))
                   (truncateExtensions (ERROR_HANDLING (Config E)))))
             (SpanRef <$> childOf span s)] ∧
        h !! "fspiop-source" =
          Some (Some (Headers_FSPIOP_SWITCH_value (Enum E))) ∧
        h !! "fspiop-destination" =
          Some (hget headers (Headers_FSPIOP_SOURCE (Enum E))) ∧
        (∀ k, k ≠ "fspiop-source" → k ≠ "fspiop-destination" →
              h !! k = headers !! k) ∧
        (∀ p, span = Some (SpanRef p) →
           ∃ sp, store r !! length s = Some sp ∧
                 spanName sp = "forwardPostAuthorization" ∧
                 spanParent sp = p)
  | Ok _ => escalations (calls r) = []
  end.
Proof.
  intros Hspan r.
  destruct (forwarder_run E path headers id payload span s Hspan)
    as (_ & Hstore & Hesc & _).
  fold r in Hstore, Hesc.
  destruct (forwardAttempt E path headers id payload)
    as [[[]|err] closed]; cbn [fst] in *; [exact Hesc|].
  eexists. split; [exact Hesc|].
  unfold escalationHeaders.
  split; [apply errorHeaders_source|].
  split; [apply errorHeaders_destination|].
  split; [apply errorHeaders_other|].
  intros p ->. rewrite Hstore. cbn [forwarderSpans].
  eexists. split; [apply lookup_new|done].
Qed.

Lemma escalation_exactly_once_per_failure_witness :
  Some (SpanRef 0) ≠ Some SpanWithoutGetChild ∧
  ∃ h : Headers,
    escalations (calls (Sample.forward false true false)) =
      [EvEscalate
         "/thirdpartyRequests/transactions/{ID}/authorizations/error"
         h
         Sample.transactionRequestId
         (ErrorBody
            {| errorCode := "2001"; errorDescription := "ECONNREFUSED";
               extensionList := [] |})
         (Some (SpanRef 1))] ∧
    h !! "fspiop-source" = Some (Some "switch") ∧
    h !! "fspiop-destination" = Some (Some "pispA") ∧
    (∀ k, k ≠ "fspiop-source" → k ≠ "fspiop-destination" →
          h !! k = Sample.headers !! k) ∧
    (∀ p, Some (SpanRef 0) = Some (SpanRef p) →
       ∃ sp, store (Sample.forward false true false) !! 1 = Some sp ∧
             spanName sp = "forwardPostAuthorization" ∧
             spanParent sp = p).
Proof.
  split; [discriminate|].
  exact (escalation_exactly_once_per_failure (Sample.env false true false)
           Sample.path Sample.headers Sample.transactionRequestId
           Sample.payload (Some (SpanRef 0)) Sample.inbound
           ltac:(discriminate)).
Defined.

(** ** The reversed headers as a whole *)

(** C5. The headers handed to the Error Escalator are the original
    headers with two fields set: [fspiop-source] to the switch identifier
    and [fspiop-destination] to the source participant of the original
    request; every other field is as in the original. *)
Theorem reversed_headers_change_two_fields
    E path headers id payload span (s : SpanStore) err closed :
  span ≠ Some SpanWithoutGetChild →
  forwardAttempt E path headers id payload = (Throw err, closed) →
  ∃ (h : Headers) body sp,
    escalations
      (calls (forwardPostAuthorization E path headers id payload span s)) =
      [EvEscalate
         (FspEndpointTemplates_THIRDPARTY_TRANSACTION_REQUEST_AUTHORIZATIONS_PUT_ERROR (Enum E))
         h id body sp] ∧
    h !! "fspiop-source" =
      Some (Some (Headers_FSPIOP_SWITCH_value (Enum E))) ∧
    h !! "fspiop-destination" =
      Some (hget headers (Headers_FSPIOP_SOURCE (Enum E))) ∧
    ∀ k, k ≠ "fspiop-source" → k ≠ "fspiop-destination" →
         h !! k = headers !! k.
Proof.
  intros Hspan Hfail.
  destruct (forwarder_run E path headers id payload span s Hspan)
    as (_ & _ & Hesc & _).
  rewrite Hfail in Hesc. cbn [fst] in Hesc.
  eexists _, _, _. split; [exact Hesc|].
  unfold escalationHeaders.
  split; [apply errorHeaders_source|].
  split; [apply errorHeaders_destination|].
  apply errorHeaders_other.
Qed.

Lemma reversed_headers_change_two_fields_witness :
  Some (SpanRef 0) ≠ Some SpanWithoutGetChild ∧
  forwardAttempt (Sample.env false true false) Sample.path Sample.headers
    Sample.transactionRequestId Sample.payload =
    (Throw Sample.networkError, false) ∧
  ∃ (h : Headers) body sp,
    escalations (calls (Sample.forward false true false)) =
      [EvEscalate
         "/thirdpartyRequests/transactions/{ID}/authorizations/error"
         h Sample.transactionRequestId body sp] ∧
    h !! "fspiop-source" = Some (Some "switch") ∧
    h !! "fspiop-destination" = Some (Some "pispA") ∧
    ∀ k, k ≠ "fspiop-source" → k ≠ "fspiop-destination" →
         h !! k = Sample.headers !! k.
Proof.
  split; [discriminate|]. split; [reflexivity|].
  exact (reversed_headers_change_two_fields (Sample.env false true false)
           Sample.path Sample.headers Sample.transactionRequestId
           Sample.payload (Some (SpanRef 0)) Sample.inbound
           Sample.networkError false ltac:(discriminate) eq_refl).
Defined.

(** C4, as the code has it. After a forwarding failure the single
    escalation call carries headers whose source participant is the
    switch and whose destination participant is the source participant of
    the original request (the header names of [Enum] being the ones the
    object literal spells out). *)
Theorem escalation_goes_from_switch_to_original_source
    E path headers id payload span (s : SpanStore) err closed :
  Headers_FSPIOP_SOURCE (Enum E) = "fspiop-source" →
  Headers_FSPIOP_DESTINATION (Enum E) = "fspiop-destination" →
  span ≠ Some SpanWithoutGetChild →
  forwardAttempt E path headers id payload = (Throw err, closed) →
  ∃ (h : Headers) body sp,
    escalations
      (calls (forwardPostAuthorization E path headers id payload span s)) =
      [EvEscalate
         (FspEndpointTemplates_THIRDPARTY_TRANSACTION_REQUEST_AUTHORIZATIONS_PUT_ERROR (Enum E))
         h id body sp] ∧
    hget h (Headers_FSPIOP_SOURCE (Enum E)) =
      Some (Headers_FSPIOP_SWITCH_value (Enum E)) ∧
    hget h (Headers_FSPIOP_DESTINATION (Enum E)) =
      hget headers (Headers_FSPIOP_SOURCE (Enum E)).
Proof.
  intros Hsrc Hdst Hspan Hfail.
  destruct (forwarder_run E path headers id payload span s Hspan)
    as (_ & _ & Hesc & _).
  rewrite Hfail in Hesc. cbn [fst] in Hesc.
  eexists _, _, _. split; [exact Hesc|].
  unfold escalationHeaders, hget at 1 3.
  rewrite Hsrc, Hdst, errorHeaders_source, errorHeaders_destination.
  done.
Qed.

Lemma escalation_goes_from_switch_to_original_source_witness :
  Headers_FSPIOP_SOURCE (Enum (Sample.env false true false)) =
    "fspiop-source" ∧
  Headers_FSPIOP_DESTINATION (Enum (Sample.env false true false)) =
    "fspiop-destination" ∧
  Some (SpanRef 0) ≠ Some SpanWithoutGetChild ∧
  forwardAttempt (Sample.env false true false) Sample.path Sample.headers
    Sample.transactionRequestId Sample.payload =
    (Throw Sample.networkError, false) ∧
  ∃ (h : Headers) body sp,
    escalations (calls (Sample.forward false true false)) =
      [EvEscalate
         "/thirdpartyRequests/transactions/{ID}/authorizations/error"
         h Sample.transactionRequestId body sp] ∧
    hget h "fspiop-source" = Some "switch" ∧
    hget h "fspiop-destination" = Some "pispA".
Proof.
  split; [reflexivity|]. split; [reflexivity|].
  split; [discriminate|]. split; [reflexivity|].
  exact (escalation_goes_from_switch_to_original_source
           (Sample.env false true false)
           Sample.path Sample.headers Sample.transactionRequestId
           Sample.payload (Some (SpanRef 0)) Sample.inbound
           Sample.networkError false eq_refl eq_refl
           ltac:(discriminate) eq_refl).
Defined.

(** C4, as it is stated, fails: the request from pispA to dfspA is
    refused by the network, and the escalation that follows names the
    switch as its source, not dfspA, the destination of the original. *)
Lemma escalation_source_is_not_original_destination :
  forwardAttempt (Sample.env false true false) Sample.path Sample.headers
    Sample.transactionRequestId Sample.payload =
    (Throw Sample.networkError, false) ∧
  ∃ path (h : Headers) id body sp,
    escalations (calls (Sample.forward false true false)) =
      [EvEscalate path h id body sp] ∧
    hget h "fspiop-source" = Some "switch" ∧
    hget Sample.headers "fspiop-destination" = Some "dfspA" ∧
    hget h "fspiop-source" ≠ hget Sample.headers "fspiop-destination".
Proof.
  split; [reflexivity|].
  eexists _, (errorHeaders (Sample.env false true false) Sample.headers
                (Some "pispA")), _, _, _.
  split; [reflexivity|].
  split; [reflexivity|]. split; [reflexivity|].
  vm_compute. discriminate.
Qed.

(** ** What the Forwarder raises *)

(** C1, as the code has it. After a failure caught by the Forwarder whose
    escalation succeeds, the Forwarder finishes its child span with error
    status unless the span is finished already, as the last thing it does,
    and raises the original normalized failure.  When the escalation
    itself fails, the escalation's normalized failure is what the caller
    gets. *)
Theorem forwarder_reraises_original_after_escalation
    E path headers id payload span (s : SpanStore) err closed :
  span ≠ Some SpanWithoutGetChild →
  forwardAttempt E path headers id payload = (Throw err, closed) →
  let r := forwardPostAuthorization E path headers id payload span s in
  let fspiopError := ReformatFSPIOPError E err in
  (is_ok (escalationAttempt E headers id err).1 = true →
   outcome r = Throw (Fspiop fspiopError) ∧
   ∀ p, span = Some (SpanRef p) →
     store r !! length s =
       Some {| spanName := "forwardPostAuthorization"; spanParent := p;
               isFinished := true; finishCalls := 1;
               spanError := if closed then None else Some fspiopError |} ∧
     (closed = false →
      last (calls r) = Some (EvFinish (length s) (Some fspiopError)))) ∧
  (∀ err', (escalationAttempt E headers id err).1 = Throw err' →
   outcome r = Throw (Fspiop (ReformatFSPIOPError E err'))).
Proof.
  intros Hspan Hfail r fspiopError.
  destruct (forwarder_run E path headers id payload span s Hspan)
    as (Hout & Hstore & _ & _ & _ & Hlast).
  fold r in Hout, Hstore, Hlast.
  rewrite Hfail in Hout, Hstore, Hlast.
  unfold forwarderOutcome in Hout. cbn [fst] in Hout.
  split.
  - intros Hok. rewrite Hout.
    destruct (escalationAttempt E headers id err).1 eqn:Hesc; [|done].
    split; [done|]. intros p ->.
    rewrite Hstore. cbn [forwarderSpans]. rewrite Hesc. cbn [is_ok].
    rewrite orb_true_r, lookup_new.
    split; [by destruct closed|].
    intros ->. apply Hlast; [done|]. by eexists.
  - intros err' Hesc. by rewrite Hout, Hesc.
Qed.

Lemma forwarder_reraises_original_after_escalation_witness :
  let E := Sample.env false true false in
  let r := Sample.forward false true false in
  let fspiopError := ReformatFSPIOPError E Sample.networkError in
  Some (SpanRef 0) ≠ Some SpanWithoutGetChild ∧
  forwardAttempt E Sample.path Sample.headers Sample.transactionRequestId
    Sample.payload = (Throw Sample.networkError, false) ∧
  is_ok (escalationAttempt E Sample.headers Sample.transactionRequestId
           Sample.networkError).1 = true ∧
  outcome r = Throw (Fspiop fspiopError) ∧
  store r !! 1 =
    Some {| spanName := "forwardPostAuthorization"; spanParent := 0;
            isFinished := true; finishCalls := 1;
            spanError := Some fspiopError |} ∧
  last (calls r) = Some (EvFinish 1 (Some fspiopError)).
Proof.
  cbv zeta. split; [discriminate|]. split; [reflexivity|].
  split; [reflexivity|].
  destruct (forwarder_reraises_original_after_escalation
              (Sample.env false true false)
              Sample.path Sample.headers Sample.transactionRequestId
              Sample.payload (Some (SpanRef 0)) Sample.inbound
              Sample.networkError false ltac:(discriminate) eq_refl)
    as [Hok _].
  destruct (Hok eq_refl) as [Hout Hspan].
  destruct (Hspan 0 eq_refl) as [Hstore Hlast].
  split; [exact Hout|]. split; [exact Hstore | exact (Hlast eq_refl)].
Defined.

(** C1, as it is stated, fails: the forwarding POST is refused, the
    error-callback endpoint of the source cannot be resolved either, and
    the caller gets the escalation's failure, not the forwarding one. *)
Lemma escalation_failure_replaces_original :
  let E := Sample.env false false false in
  let r := Sample.forward false false false in
  forwardAttempt E Sample.path Sample.headers Sample.transactionRequestId
    Sample.payload = (Throw Sample.networkError, false) ∧
  escalationAttempt E Sample.headers Sample.transactionRequestId
    Sample.networkError = (Throw Sample.noErrorEndpoint, false) ∧
  outcome r = Throw (Fspiop (ReformatFSPIOPError E Sample.noErrorEndpoint)) ∧
  outcome r ≠ Throw (Fspiop (ReformatFSPIOPError E Sample.networkError)).
Proof.
  cbv zeta. split; [reflexivity|]. split; [reflexivity|].
  split; [reflexivity|]. vm_compute. discriminate.
Qed.

(** ** A successful forward *)

(** When the three awaited steps succeed, the Forwarder returns, its child
    span has been finished exactly once, and nothing is escalated. *)
Lemma forwarder_success
    E path headers id payload span (s : SpanStore) closed :
  span ≠ Some SpanWithoutGetChild →
  forwardAttempt E path headers id payload = (Ok tt, closed) →
  let r := forwardPostAuthorization E path headers id payload span s in
  outcome r = Ok tt ∧
  escalations (calls r) = [] ∧
  length (sends (calls r)) = 1 ∧
  ∀ p, span = Some (SpanRef p) →
    store r =
      s ++ [{| spanName := "forwardPostAuthorization"; spanParent := p;
               isFinished := true; finishCalls := 1; spanError := None |}].
Proof.
  intros Hspan Hok r.
  destruct (forwarder_run E path headers id payload span s Hspan)
    as (Hout & Hstore & Hesc & Hsends & _).
  fold r in Hout, Hstore, Hesc, Hsends.
  rewrite Hok in Hout, Hstore, Hesc, Hsends.
  split; [exact Hout|]. split; [exact Hesc|]. split.
  - rewrite Hsends, app_nil_r. revert Hok.
    unfold forwardAttempt, attempt, forwarderSends, sentBy.
    by repeat case_match.
  - by intros p ->.
Qed.

(** The escalator's child span has been finished exactly once when the
    escalator returns or raises. *)
Lemma escalator_span_finished_exactly_once
    E path headers id payload p (s : SpanStore) :
  let r := forwardPostAuthorizationError E path headers id payload
             (Some (SpanRef p)) s in
  ∃ sp, store r !! length s = Some sp ∧
        isFinished sp = true ∧ finishCalls sp = 1.
Proof.
  intros r.
  destruct (escalator_run E path headers id payload (Some (SpanRef p)) s)
    as (_ & Hstore & _); [done|].
  fold r in Hstore. rewrite Hstore. cbn [escalatorSpans].
  eexists. by rewrite lookup_new.
Qed.

(** ** The span of the Forwarder when the escalation fails *)

(** When the escalation fails, the catch block of the Forwarder is left
    by the escalation's failure: unless the sender had closed it, the
    Forwarder's child span stays open, with no [finish] call on it. *)
Lemma forwarder_span_open_after_failed_escalation
    E path headers id payload p (s : SpanStore) err err' closed' :
  forwardAttempt E path headers id payload = (Throw err, false) →
  escalationAttempt E headers id err = (Throw err', closed') →
  let r := forwardPostAuthorization E path headers id payload
             (Some (SpanRef p)) s in
  store r !! length s =
    Some {| spanName := "forwardPostAuthorization"; spanParent := p;
            isFinished := false; finishCalls := 0; spanError := None |}.
Proof.
  intros Hfail Hesc r.
  destruct (forwarder_run E path headers id payload (Some (SpanRef p)) s)
    as (_ & Hstore & _); [done|].
  fold r in Hstore. rewrite Hstore, Hfail. cbn [forwarderSpans].
  rewrite Hesc. cbn. by rewrite lookup_new.
Qed.

(** Every span a run creates has been finished at most once when the run
    ends, whatever the collaborators answer. *)
Lemma created_spans_finished_at_most_once
    E path headers id payload span (s : SpanStore) c sp :
  span ≠ Some SpanWithoutGetChild →
  length s ≤ c →
  store (forwardPostAuthorization E path headers id payload span s) !! c =
    Some sp →
  finishCalls sp ≤ 1 ∧ (isFinished sp = true ↔ finishCalls sp = 1).
Proof.
  intros Hspan Hc.
  destruct (forwarder_run E path headers id payload span s Hspan)
    as (_ & -> & _).
  rewrite lookup_app_r by done.
  unfold forwarderSpans, escalatorSpans.
  destruct span as [[|p]|]; [done| |by rewrite lookup_nil].
  destruct (forwardAttempt E path headers id payload) as [[[]|err] closed].
  - destruct (c - length s) as [|[|n]]; cbn; intros [= <-]; cbn; by auto.
  - destruct (c - length s) as [|[|n]]; cbn; intros [= <-]; cbn; [|by auto].
    destruct closed, (is_ok _); cbn; split; try lia; split; done.
Qed.

(** C2 at its failing input. A parent span is supplied, the forwarding
    POST is refused and the error callback cannot be resolved: the
    operation raises while its child span (index 1) is still open, and no
    [finish] call was made on it. *)
Theorem forwarder_span_left_open_when_escalation_fails :
  let r := Sample.forward false false false in
  (∃ e, outcome r = Throw e) ∧
  store r !! 1 =
    Some {| spanName := "forwardPostAuthorization"; spanParent := 0;
            isFinished := false; finishCalls := 0; spanError := None |} ∧
  finishes 1 (calls r) = [].
Proof.
  cbv zeta. split; [by eexists|]. split; reflexivity.
Qed.

(** ** Failures of the Error Escalator *)

(** C6. A failure inside the Error Escalator is normalized, the
    escalator's child span is finished with error status unless it is
    finished already, and the normalized error is raised; the run holds no
    escalator call besides itself and at most one outbound request, so a
    whole relay makes at most one escalation and two outbound requests. *)
Theorem escalator_failure_is_final
    E path headers id payload span (s : SpanStore) err closed :
  span ≠ Some SpanWithoutGetChild →
  escalateAttempt E path headers id payload = (Throw err, closed) →
  let r := forwardPostAuthorizationError E path headers id payload span s in
  let fspiopError := ReformatFSPIOPError E err in
  outcome r = Throw (Fspiop fspiopError) ∧
  (∀ p, span = Some (SpanRef p) →
     store r !! length s =
       Some {| spanName := "forwardPostAuthorizationError"; spanParent := p;
               isFinished := true; finishCalls := 1;
               spanError := if closed then None else Some fspiopError |}) ∧
  escalations (calls r) = [EvEscalate path headers id payload span] ∧
  length (sends (calls r)) ≤ 1 ∧
  (∀ path' headers' id' authorization span' (s' : SpanStore),
     span' ≠ Some SpanWithoutGetChild →
     let r' := forwardPostAuthorization E path' headers' id' authorization
                 span' s' in
     length (escalations (calls r')) ≤ 1 ∧ length (sends (calls r')) ≤ 2).
Proof.
  intros Hspan Hfail r fspiopError.
  destruct (escalator_run E path headers id payload span s Hspan)
    as (Hout & Hstore & Hesc & Hsends & _).
  fold r in Hout, Hstore, Hesc, Hsends. rewrite Hfail in Hout, Hstore.
  split; [exact Hout|].
  split.
  { intros p ->. rewrite Hstore. cbn [escalatorSpans].
    rewrite lookup_new. by destruct closed. }
  split; [exact Hesc|].
  split.
  { rewrite Hsends. unfold escalatorSends, sentBy.
    repeat case_match; cbn; lia. }
  intros path' headers' id' authorization span' s' Hspan' r'.
  destruct (forwarder_run E path' headers' id' authorization span' s' Hspan')
    as (_ & _ & Hesc' & Hsends' & _).
  fold r' in Hesc', Hsends'. rewrite Hesc', Hsends'.
  unfold forwarderSends, escalatorSends, sentBy. rewrite length_app.
  split; repeat case_match; cbn; lia.
Qed.

Lemma escalator_failure_is_final_witness :
  let E := Sample.env false false false in
  let path := "/thirdpartyRequests/transactions/{ID}/authorizations/error" in
  let payload :=
    ErrorBody {| errorCode := "2001"; errorDescription := "ECONNREFUSED";
                 extensionList := [] |} in
  let r := forwardPostAuthorizationError E path Sample.headers
             Sample.transactionRequestId payload (Some (SpanRef 0))
             Sample.inbound in
  Some (SpanRef 0) ≠ Some SpanWithoutGetChild ∧
  escalateAttempt E path Sample.headers Sample.transactionRequestId payload =
    (Throw Sample.noErrorEndpoint, false) ∧
  outcome r =
    Throw (Fspiop (ReformatFSPIOPError E Sample.noErrorEndpoint)) ∧
  (∀ p, Some (SpanRef 0) = Some (SpanRef p) →
     store r !! length Sample.inbound =
       Some {| spanName := "forwardPostAuthorizationError"; spanParent := p;
               isFinished := true; finishCalls := 1;
               spanError :=
                 Some (ReformatFSPIOPError E Sample.noErrorEndpoint) |}) ∧
  escalations (calls r) =
    [EvEscalate path Sample.headers Sample.transactionRequestId payload
       (Some (SpanRef 0))] ∧
  length (sends (calls r)) ≤ 1 ∧
  (∀ path' headers' id' authorization span' (s' : SpanStore),
     span' ≠ Some SpanWithoutGetChild →
     let r' := forwardPostAuthorization E path' headers' id' authorization
                 span' s' in
     length (escalations (calls r')) ≤ 1 ∧ length (sends (calls r')) ≤ 2).
Proof.
  cbv zeta. split; [discriminate|]. split; [reflexivity|].
  exact (escalator_failure_is_final (Sample.env false false false)
           "/thirdpartyRequests/transactions/{ID}/authorizations/error"
           Sample.headers Sample.transactionRequestId
           (ErrorBody {| errorCode := "2001";
                         errorDescription := "ECONNREFUSED";
                         extensionList := [] |})
           (Some (SpanRef 0)) Sample.inbound
           Sample.noErrorEndpoint false ltac:(discriminate) eq_refl).
Defined.

(** ** Literal substitution *)

Section Substitution.

Context (v : string).

Lemma substitute_at_placeholder t :
  substitute_from 0 "{ID}" v ("{ID}" +:+ t) =
  v +:+ substitute_from 0 "{ID}" v t.
Proof. by destruct t. Qed.

Lemma substitute_other_char c t :
  "{"%char ≠ c →
  substitute_from 0 "{ID}" v (String c t) =
  String c (substitute_from 0 "{ID}" v t).
Proof.
  intros Hc.
  change (substitute_from 0 "{ID}" v (String c t)) with
    (if match ascii_dec "{"%char c with
        | left _ => String.prefix "ID}" t
        | right _ => false
        end
     then v +:+ substitute_from 3 "{ID}" v t
     else String c (substitute_from 0 "{ID}" v t)).
  by destruct (ascii_dec "{"%char c).
Qed.

Lemma occurs_cons c c' t :
  occurs c (String c' t) = false → c ≠ c' ∧ occurs c t = false.
Proof. cbn [occurs]. by destruct (ascii_dec c c'). Qed.

Lemma substitute_without_brace t :
  occurs "{"%char t = false → substitute_from 0 "{ID}" v t = t.
Proof.
  induction t as [|c t IH]; [done|].
  intros [Hc Ht]%occurs_cons.
  by rewrite substitute_other_char, IH.
Qed.

Lemma substitute_after_plain_text pre rest :
  occurs "{"%char pre = false →
  substitute_from 0 "{ID}" v (pre +:+ rest) =
  pre +:+ substitute_from 0 "{ID}" v rest.
Proof.
  induction pre as [|c pre IH]; [done|].
  intros [Hc Hpre]%occurs_cons.
  change (String c pre +:+ rest) with (String c (pre +:+ rest)).
  by rewrite substitute_other_char, IH.
Qed.

(** The text before the placeholder is kept, the placeholder is replaced
    by the identifier, and the substitution goes on after it. *)
Lemma render_literal_fills_placeholder pre post :
  occurs "{"%char pre = false →
  render_literal (pre +:+ "{ID}" +:+ post) v =
  pre +:+ v +:+ render_literal post v.
Proof.
  intros Hpre. unfold render_literal.
  by rewrite substitute_after_plain_text, substitute_at_placeholder.
Qed.

End Substitution.

Example render_literal_sample :
  render_literal
    "http://dfspA/thirdpartyRequests/transactions/{ID}/authorizations"
    "a5bbfd51-d9fc-4084-961a-c2c2221a31e0" =
  "http://dfspA/thirdpartyRequests/transactions/a5bbfd51-d9fc-4084-961a-c2c2221a31e0/authorizations".
Proof. reflexivity. Qed.

(** ** The span hierarchy *)

(** C10. When the Forwarder fails while a parent span [p] was supplied,
    the escalator is handed the Forwarder's child span (named
    forwardPostAuthorization, child of [p]) and derives from it the span
    named forwardPostAuthorizationError: the escalation's span is a
    grandchild of the inbound span, not a second child of it. *)
Theorem escalation_span_is_grandchild_of_inbound
    E path headers id payload p (s : SpanStore) err closed :
  p < length s →
  forwardAttempt E path headers id payload = (Throw err, closed) →
  let r := forwardPostAuthorization E path headers id payload
             (Some (SpanRef p)) s in
  let child := length s in
  let grandchild := S (length s) in
  (∃ (h : Headers) body,
     escalations (calls r) =
       [EvEscalate
          (FspEndpointTemplates_THIRDPARTY_TRANSACTION_REQUEST_AUTHORIZATIONS_PUT_ERROR (Enum E))
          h id body (Some (SpanRef child))]) ∧
  (∃ sp, store r !! child = Some sp ∧
         spanName sp = "forwardPostAuthorization" ∧ spanParent sp = p) ∧
  (∃ sp, store r !! grandchild = Some sp ∧
         spanName sp = "forwardPostAuthorizationError" ∧
         spanParent sp = child) ∧
  child ≠ p ∧
  length (store r) = S (S (length s)).
Proof.
  intros Hp Hfail r child grandchild.
  destruct (forwarder_run E path headers id payload (Some (SpanRef p)) s)
    as (_ & Hstore & Hesc & _); [done|].
  fold r in Hstore, Hesc. rewrite Hfail in Hstore, Hesc.
  cbn [fst forwarderSpans escalatorSpans] in Hstore, Hesc.
  split; [by eexists _, _|].
  rewrite Hstore.
  split; [eexists; split; [apply lookup_new|done]|].
  split; [eexists; split; [apply lookup_new_next|done]|].
  split; [unfold child; lia|].
  rewrite length_app. cbn. lia.
Qed.

Lemma escalation_span_is_grandchild_of_inbound_witness :
  0 < length Sample.inbound ∧
  forwardAttempt (Sample.env false true false) Sample.path Sample.headers
    Sample.transactionRequestId Sample.payload =
    (Throw Sample.networkError, false) ∧
  let r := Sample.forward false true false in
  (∃ (h : Headers) body,
     escalations (calls r) =
       [EvEscalate
          "/thirdpartyRequests/transactions/{ID}/authorizations/error"
          h Sample.transactionRequestId body (Some (SpanRef 1))]) ∧
  (∃ sp, store r !! 1 = Some sp ∧
         spanName sp = "forwardPostAuthorization" ∧ spanParent sp = 0) ∧
  (∃ sp, store r !! 2 = Some sp ∧
         spanName sp = "forwardPostAuthorizationError" ∧
         spanParent sp = 1) ∧
  1 ≠ 0 ∧
  length (store r) = 3.
Proof.
  split; [cbn; lia|]. split; [reflexivity|].
  exact (escalation_span_is_grandchild_of_inbound
           (Sample.env false true false)
           Sample.path Sample.headers Sample.transactionRequestId
           Sample.payload 0 Sample.inbound Sample.networkError false
           ltac:(cbn; lia) eq_refl).
Defined.

(** * Further properties of the two operations *)

(** ** The trace of a run, step by step *)

Ltac unfold_trace :=
  unfold resolutions, errorsLogged, stages.

Lemma escalator_trace E path headers id payload span s :
  span ≠ Some SpanWithoutGetChild →
  let r := forwardPostAuthorizationError E path headers id payload span s in
  let a := escalateAttempt E path headers id payload in
  resolutions (calls r) =
    [EvGetEndpoint (ENDPOINT_SERVICE_URL (Config E))
       (hget headers (Headers_FSPIOP_DESTINATION (Enum E)))
       (FspEndpointTypes_THIRDPARTY_CALLBACK_URL_TRANSACTION_REQUEST_AUTHORIZATIONS_PUT_ERROR (Enum E))] ∧
  StronglySorted lt (stages (calls r)) ∧
  length (errorsLogged (calls r)) = (if is_ok a.1 then 0 else 1) ∧
  (∀ c, length (finishes c (calls r)) =
        match childOf span s with
        | Some c' => if (c =? c') && negb a.2 then 1 else 0
        | None => 0
        end).
Proof.
  intros Hspan.
  unfold forwardPostAuthorizationError, escalateAttempt. unfold_run.
  unfold_trace.
  destruct span as [[|p]|]; [done| |]; run;
    (split; [done|]);
    (split; [repeat constructor; lia|]);
    (split; [done|]); intros c; try done;
    rewrite ?andb_false_r, ?andb_true_r; by destruct (c =? length s).
Qed.

(** The nested escalator run is replaced by what is known of it. *)
Ltac escalate_traced :=
  match goal with
  | |- context [forwardPostAuthorizationError ?E ?p ?h ?i ?b ?sp ?s] =>
      let H := fresh "Hrun" in
      let H' := fresh "Htrace" in
      pose proof (escalator_run E p h i b sp s ltac:(done)) as H;
      pose proof (escalator_trace E p h i b sp s ltac:(done)) as H';
      cbv zeta in H, H'; unfold outcome, store, calls in H, H';
      destruct (forwardPostAuthorizationError E p h i b sp s) as [[? ?] ?];
      cbn [fst snd] in H, H';
      destruct H as (-> & -> & _);
      destruct H' as (? & _ & ? & ?)
  end.

Lemma forwarder_trace E path headers id payload span s :
  span ≠ Some SpanWithoutGetChild →
  let r := forwardPostAuthorization E path headers id payload span s in
  let a := forwardAttempt E path headers id payload in
  resolutions (calls r) =
    EvGetEndpoint (ENDPOINT_SERVICE_URL (Config E))
      (hget headers (Headers_FSPIOP_DESTINATION (Enum E)))
      (FspEndpointTypes_THIRDPARTY_TRANSACTIONS_AUTHORIZATIONS_POST (Enum E))
    :: match a.1 with
       | Ok _ => []
       | Throw err =>
           [EvGetEndpoint (ENDPOINT_SERVICE_URL (Config E))
              (hget (escalationHeaders E headers)
                 (Headers_FSPIOP_DESTINATION (Enum E)))
              (FspEndpointTypes_THIRDPARTY_CALLBACK_URL_TRANSACTION_REQUEST_AUTHORIZATIONS_PUT_ERROR (Enum E))]
       end ∧
  (is_ok a.1 = true → StronglySorted lt (stages (calls r))) ∧
  length (errorsLogged (calls r)) =
    match a.1 with
    | Ok _ => 0
    | Throw err =>
        if is_ok (escalationAttempt E headers id err).1 then 1 else 2
    end ∧
  length (finishes (length s) (calls r)) =
    match childOf span s, a with
    | None, _ => 0
    | Some _, (Ok _, closed) => if closed then 0 else 1
    | Some _, (Throw err, closed) =>
        if closed then 0
        else if is_ok (escalationAttempt E headers id err).1 then 1 else 0
    end.
Proof.
  intros Hspan.
  unfold forwardPostAuthorization, forwardAttempt, escalationAttempt,
    escalationHeaders, escalationBody, escalationPath.
  unfold_run. unfold_trace.
  destruct span as [[|p]|]; [done| |]; run.
  all: try escalate_traced.
  all: try match goal with
       | |- context [escalateAttempt ?E ?p ?h ?i ?b] =>
           destruct (escalateAttempt E p h i b) as [[[]|?] []]
       end.
  all: unfold normalized, escalatorSpans, errorStatus; rewrite <- ?app_assoc; run.
  all: unfold resolutions, errorsLogged, finishes in *.
  all: rewrite ?List.filter_app; cbn.
  all: rewrite ?Nat.eqb_refl; cbn; rewrite ?length_app; cbn.
  all: repeat match goal with
         | H : List.filter is_getEndpoint ?l = _ |- _ => rewrite H; clear H
         | H : ∀ c, length (List.filter (is_finish_of c) _) = _ |- _ =>
             specialize (H (length s)); cbn [childOf] in H;
             rewrite ?length_app in H; cbn [length] in H;
             try replace (length s =? length s + 1) with false in H
               by (symmetry; apply Nat.eqb_neq; lia);
             cbn in H; rewrite H; clear H
         end.
  all: cbn in *.
  all: rewrite ?app_nil_r, ?length_app, ?Nat.eqb_refl; cbn.
  all: (split; [done|]).
  all: (split; [try done; intros _; repeat constructor; lia|]).
  all: split; [lia || done|]; try done.
Qed.

(** ** Spans at the end of a run *)

(** X1. Entered with a well-formed parent span, the Error Escalator ends,
    whether it returns or raises, with its child span finished exactly
    once; it calls [finish] on it itself unless the sender had closed it,
    and on no other span. *)
Theorem escalator_finishes_its_span_on_every_path
    E path headers id payload p (s : SpanStore) :
  let r := forwardPostAuthorizationError E path headers id payload
             (Some (SpanRef p)) s in
  (∃ sp, store r !! length s = Some sp ∧
         spanParent sp = p ∧ isFinished sp = true ∧ finishCalls sp = 1) ∧
  length (finishes (length s) (calls r)) =
    (if (escalateAttempt E path headers id payload).2 then 0 else 1) ∧
  (∀ c, c ≠ length s → finishes c (calls r) = []).
Proof.
  intros r.
  destruct (escalator_run E path headers id payload (Some (SpanRef p)) s)
    as (_ & Hstore & _); [done|].
  destruct (escalator_trace E path headers id payload (Some (SpanRef p)) s)
    as (_ & _ & _ & Hfin); [done|].
  fold r in Hstore, Hfin. cbn [childOf] in Hfin.
  split.
  { rewrite Hstore. cbn [escalatorSpans]. eexists. by rewrite lookup_new. }
  split.
  { rewrite Hfin, Nat.eqb_refl.
    by destruct (escalateAttempt E path headers id payload).2. }
  intros c Hc. apply nil_length_inv. rewrite Hfin.
  by apply Nat.eqb_neq in Hc as ->.
Qed.

(** X2. Entered with a well-formed parent span, the Forwarder leaves its
    child span open exactly when the forward failed without the sender
    closing the span and the escalation failed as well; on every other
    path the span is finished when the Forwarder returns or raises. *)
Theorem forwarder_span_open_iff_escalation_fails
    E path headers id payload p (s : SpanStore) :
  let r := forwardPostAuthorization E path headers id payload
             (Some (SpanRef p)) s in
  ∃ sp, store r !! length s = Some sp ∧
    (isFinished sp = false ↔
     ∃ err err' closed',
       forwardAttempt E path headers id payload = (Throw err, false) ∧
       escalationAttempt E headers id err = (Throw err', closed')).
Proof.
  intros r.
  destruct (forwarder_run E path headers id payload (Some (SpanRef p)) s)
    as (_ & Hstore & _); [done|].
  fold r in Hstore. rewrite Hstore. cbn [forwarderSpans].
  destruct (forwardAttempt E path headers id payload)
    as [[[]|err] closed] eqn:Hfwd.
  - eexists. rewrite lookup_new. split; [done|]. cbn.
    split; [done|]. by intros (? & ? & ? & ? & ?).
  - cbn zeta. eexists. rewrite lookup_new. split; [done|]. cbn.
    destruct (escalationAttempt E headers id err) as [[[]|err'] closed']
      eqn:Hesc; destruct closed; cbn; split; try done.
    all: try (intros (? & ? & ? & [=] & ?); congruence).
    intros _. by eexists _, _, _.
Qed.

(** X3. No span is finished twice: during a run of the Forwarder (the
    escalation included) the two operations call [finish] at most once on
    any span, and every span the run created has received at most one
    [finish] call, the sender's counted. *)
Theorem no_span_is_finished_twice
    E path headers id payload span (s : SpanStore) :
  span ≠ Some SpanWithoutGetChild →
  let r := forwardPostAuthorization E path headers id payload span s in
  (∀ c, length (finishes c (calls r)) ≤ 1) ∧
  (∀ c sp, length s ≤ c → store r !! c = Some sp → finishCalls sp ≤ 1).
Proof.
  intros Hspan r.
  destruct (forwarder_run E path headers id payload span s Hspan)
    as (_ & _ & _ & _ & Hfin & _).
  split; [exact Hfin|].
  intros c sp Hc Hsp.
  by destruct (created_spans_finished_at_most_once E path headers id payload
                 span s c sp Hspan Hc Hsp).
Qed.

Lemma no_span_is_finished_twice_witness :
  let r := Sample.forward false true true in
  Some (SpanRef 0) ≠ Some SpanWithoutGetChild ∧
  (∀ c, length (finishes c (calls r)) ≤ 1) ∧
  (∀ c sp, length Sample.inbound ≤ c → store r !! c = Some sp →
           finishCalls sp ≤ 1) ∧
  (finishCalls <$> store r !! 1) = Some 1 ∧
  finishes 1 (calls r) = [].
Proof.
  cbv zeta. split; [discriminate|].
  destruct (no_span_is_finished_twice (Sample.env false true true)
              Sample.path Sample.headers Sample.transactionRequestId
              Sample.payload (Some (SpanRef 0)) Sample.inbound
              ltac:(discriminate)) as [H1 H2].
  split; [exact H1|]. split; [exact H2|]. split; reflexivity.
Defined.

(** X4. The spans the caller holds are never touched: after a run of
    either operation, whatever the span argument, the spans of the store
    it was entered with are as they were (the parent span is not
    finished), and the Forwarder has added one span when it succeeded
    with a parent span, two when it failed with one, and none otherwise. *)
Theorem caller_spans_are_untouched
    E path headers id authorization payload span (s : SpanStore) :
  let r := forwardPostAuthorization E path headers id authorization span s in
  let r' := forwardPostAuthorizationError E path headers id payload span s in
  (∀ i, i < length s → store r !! i = s !! i) ∧
  (∀ i, i < length s → store r' !! i = s !! i) ∧
  length (store r) =
    length s +
    match span with
    | Some (SpanRef _) =>
        if is_ok (forwardAttempt E path headers id authorization).1
        then 1 else 2
    | _ => 0
    end ∧
  length (store r') =
    length s + match span with Some (SpanRef _) => 1 | _ => 0 end.
Proof.
  intros r r'.
  assert (span = Some SpanWithoutGetChild ∨ span ≠ Some SpanWithoutGetChild)
    as [->|Hspan] by (destruct span as [[|q]|]; auto).
  { subst r r'. cbn. repeat split; auto with lia. }
  destruct (forwarder_run E path headers id authorization span s Hspan)
    as (_ & Hstore & _).
  destruct (escalator_run E path headers id payload span s Hspan)
    as (_ & Hstore' & _).
  fold r in Hstore. fold r' in Hstore'. rewrite Hstore, Hstore'.
  split; [intros i Hi; by rewrite lookup_app_l|].
  split; [intros i Hi; by rewrite lookup_app_l|].
  rewrite !length_app. unfold forwarderSpans, escalatorSpans.
  destruct span as [[|q]|]; [done| |done].
  split; [|done].
  by destruct (forwardAttempt E path headers id authorization) as [[[]|?] ?].
Qed.

(** ** What is raised *)

(** X5. With an absent or well-formed span, whatever either operation
    raises is a standardized error: the run returns, or it throws an
    [FSPIOPError], never the raw failure of a collaborator. *)
Theorem only_standardized_errors_are_raised
    E path headers id authorization payload span (s : SpanStore) :
  span ≠ Some SpanWithoutGetChild →
  let r := forwardPostAuthorization E path headers id authorization span s in
  let r' := forwardPostAuthorizationError E path headers id payload span s in
  (outcome r = Ok tt ∨ ∃ f, outcome r = Throw (Fspiop f)) ∧
  (outcome r' = Ok tt ∨ ∃ f, outcome r' = Throw (Fspiop f)).
Proof.
  intros Hspan r r'.
  destruct (forwarder_run E path headers id authorization span s Hspan)
    as (Hout & _).
  destruct (escalator_run E path headers id payload span s Hspan)
    as (Hout' & _).
  fold r in Hout. fold r' in Hout'. rewrite Hout, Hout'.
  unfold forwarderOutcome, normalized.
  split; repeat case_match; eauto.
Qed.

Lemma only_standardized_errors_are_raised_witness :
  let E := Sample.env false false false in
  let r := Sample.forward false false false in
  Some (SpanRef 0) ≠ Some SpanWithoutGetChild ∧
  (outcome r = Ok tt ∨ ∃ f, outcome r = Throw (Fspiop f)) ∧
  outcome r ≠ Throw Sample.noErrorEndpoint.
Proof.
  cbv zeta. split; [discriminate|].
  split; [|vm_compute; discriminate].
  exact (proj1 (only_standardized_errors_are_raised
                  (Sample.env false false false)
                  Sample.path Sample.headers Sample.transactionRequestId
                  Sample.payload (ErrorBody {| errorCode := "2001";
                                               errorDescription := "x";
                                               extensionList := [] |})
                  (Some (SpanRef 0)) Sample.inbound ltac:(discriminate))).
Defined.

(** ** The paths without failure *)

(** X6. When resolution, rendering and sending succeed, the Forwarder
    returns after one endpoint lookup and one outbound request, taken in
    that order, with nothing escalated and nothing logged as an error,
    and with its child span finished once, without error status. *)
Theorem successful_forward
    E path headers id payload span (s : SpanStore) closed :
  span ≠ Some SpanWithoutGetChild →
  forwardAttempt E path headers id payload = (Ok tt, closed) →
  let r := forwardPostAuthorization E path headers id payload span s in
  outcome r = Ok tt ∧
  escalations (calls r) = [] ∧
  errorsLogged (calls r) = [] ∧
  length (resolutions (calls r)) = 1 ∧
  length (sends (calls r)) = 1 ∧
  StronglySorted lt (stages (calls r)) ∧
  ∀ p, span = Some (SpanRef p) →
    store r =
      s ++ [{| spanName := "forwardPostAuthorization"; spanParent := p;
               isFinished := true; finishCalls := 1; spanError := None |}].
Proof.
  intros Hspan Hok r.
  destruct (forwarder_success E path headers id payload span s closed
              Hspan Hok) as (Hout & Hesc & Hsends & Hstore).
  destruct (forwarder_trace E path headers id payload span s Hspan)
    as (Hres & Hord & Herr & _).
  fold r in Hres, Hord, Herr. rewrite Hok in Hres, Hord, Herr.
  split; [exact Hout|]. split; [exact Hesc|].
  split; [by apply nil_length_inv|].
  split; [by rewrite Hres|].
  split; [exact Hsends|].
  split; [by apply Hord|exact Hstore].
Qed.

Lemma successful_forward_witness :
  let r := Sample.forward true true false in
  Some (SpanRef 0) ≠ Some SpanWithoutGetChild ∧
  forwardAttempt (Sample.env true true false) Sample.path Sample.headers
    Sample.transactionRequestId Sample.payload = (Ok tt, false) ∧
  outcome r = Ok tt ∧
  escalations (calls r) = [] ∧
  errorsLogged (calls r) = [] ∧
  length (resolutions (calls r)) = 1 ∧
  length (sends (calls r)) = 1 ∧
  StronglySorted lt (stages (calls r)) ∧
  stages (calls r) = [0; 1; 2; 3] ∧
  ∀ p, Some (SpanRef 0) = Some (SpanRef p) →
    store r =
      Sample.inbound ++
      [{| spanName := "forwardPostAuthorization"; spanParent := p;
          isFinished := true; finishCalls := 1; spanError := None |}].
Proof.
  cbv zeta. split; [discriminate|]. split; [reflexivity|].
  destruct (successful_forward (Sample.env true true false)
              Sample.path Sample.headers Sample.transactionRequestId
              Sample.payload (Some (SpanRef 0)) Sample.inbound false
              ltac:(discriminate) eq_refl)
    as (H1 & H2 & H3 & H4 & H5 & H6 & H7).
  repeat (split; [assumption|]). split; [reflexivity|assumption].
Defined.

(** X7. When its three steps succeed, the Error Escalator returns after
    one lookup and one outbound request, logs no error, and ends with its
    child span finished once, without error status. *)
Theorem successful_escalation
    E path headers id payload span (s : SpanStore) closed :
  span ≠ Some SpanWithoutGetChild →
  escalateAttempt E path headers id payload = (Ok tt, closed) →
  let r := forwardPostAuthorizationError E path headers id payload span s in
  outcome r = Ok tt ∧
  errorsLogged (calls r) = [] ∧
  length (sends (calls r)) = 1 ∧
  ∀ p, span = Some (SpanRef p) →
    store r =
      s ++ [{| spanName := "forwardPostAuthorizationError"; spanParent := p;
               isFinished := true; finishCalls := 1; spanError := None |}].
Proof.
  intros Hspan Hok r.
  destruct (escalator_run E path headers id payload span s Hspan)
    as (Hout & Hstore & _ & Hsends & _).
  destruct (escalator_trace E path headers id payload span s Hspan)
    as (_ & _ & Herr & _).
  fold r in Hout, Hstore, Hsends, Herr.
  rewrite Hok in Hout, Hstore, Herr.
  split; [exact Hout|].
  split; [by apply nil_length_inv|].
  split.
  - rewrite Hsends. revert Hok.
    unfold escalateAttempt, attempt, escalatorSends, sentBy.
    by repeat case_match.
  - by intros p ->.
Qed.

Lemma successful_escalation_witness :
  let E := Sample.env true true false in
  let path := "/thirdpartyRequests/transactions/{ID}/authorizations/error" in
  let payload :=
    ErrorBody {| errorCode := "2001"; errorDescription := "ECONNREFUSED";
                 extensionList := [] |} in
  let r := forwardPostAuthorizationError E path Sample.headers
             Sample.transactionRequestId payload (Some (SpanRef 0))
             Sample.inbound in
  Some (SpanRef 0) ≠ Some SpanWithoutGetChild ∧
  escalateAttempt E path Sample.headers Sample.transactionRequestId payload =
    (Ok tt, false) ∧
  outcome r = Ok tt ∧
  errorsLogged (calls r) = [] ∧
  length (sends (calls r)) = 1 ∧
  ∀ p, Some (SpanRef 0) = Some (SpanRef p) →
    store r =
      Sample.inbound ++
      [{| spanName := "forwardPostAuthorizationError"; spanParent := p;
          isFinished := true; finishCalls := 1; spanError := None |}].
Proof.
  cbv zeta. split; [discriminate|]. split; [reflexivity|].
  exact (successful_escalation (Sample.env true true false)
           "/thirdpartyRequests/transactions/{ID}/authorizations/error"
           Sample.headers Sample.transactionRequestId
           (ErrorBody {| errorCode := "2001";
                         errorDescription := "ECONNREFUSED";
                         extensionList := [] |})
           (Some (SpanRef 0)) Sample.inbound false
           ltac:(discriminate) eq_refl).
Defined.

(** ** The outbound requests *)

(** X8. Whatever the renderer is, once the destination's endpoint is
    resolved and the rendering returns a URL, the Forwarder's first
    outbound request is a POST to exactly that URL, with the headers and
    the payload it received, unmodified, the source and destination read
    from those headers, and its own child span as context. *)
Theorem forward_request_carries_what_was_received
    E path headers id payload span (s : SpanStore) endpoint url :
  span ≠ Some SpanWithoutGetChild →
  getEndpoint E (ENDPOINT_SERVICE_URL (Config E))
    (hget headers (Headers_FSPIOP_DESTINATION (Enum E)))
    (FspEndpointTypes_THIRDPARTY_TRANSACTIONS_AUTHORIZATIONS_POST (Enum E)) =
    Ok endpoint →
  render E (endpoint +:+ path) id = Ok url →
  head (sends (calls (forwardPostAuthorization E path headers id payload
                        span s))) =
    Some (EvSendRequest url headers
            (hget headers (Headers_FSPIOP_SOURCE (Enum E)))
            (hget headers (Headers_FSPIOP_DESTINATION (Enum E)))
            (RestMethods_POST (Enum E)) (AuthorizationBody payload)
            (ResponseTypes_JSON (Enum E)) (childOf span s)).
Proof.
  intros Hspan Hge Hr.
  destruct (forwarder_run E path headers id payload span s Hspan)
    as (_ & _ & _ & -> & _).
  unfold forwarderSends, sentBy. by rewrite Hge, Hr.
Qed.

Lemma forward_request_carries_what_was_received_witness :
  Some (SpanRef 0) ≠ Some SpanWithoutGetChild ∧
  getEndpoint (Sample.env false true false) "http://central-ledger"
    (Some "dfspA") "THIRDPARTY_TRANSACTIONS_AUTHORIZATIONS_POST" =
    Ok "http://dfspA" ∧
  head (sends (calls (Sample.forward false true false))) =
    Some (EvSendRequest
            "http://dfspA/thirdpartyRequests/transactions/a5bbfd51-d9fc-4084-961a-c2c2221a31e0/authorizations"
            Sample.headers (Some "pispA") (Some "dfspA") "POST"
            (AuthorizationBody Sample.payload) "json" (Some 1)).
Proof.
  split; [discriminate|]. split; [reflexivity|].
  exact (forward_request_carries_what_was_received
           (Sample.env false true false)
           Sample.path Sample.headers Sample.transactionRequestId
           Sample.payload (Some (SpanRef 0)) Sample.inbound
           "http://dfspA"
           (render_literal ("http://dfspA" +:+ Sample.path)
              Sample.transactionRequestId)
           ltac:(discriminate) eq_refl eq_refl).
Defined.

Section ErrorHeadersRead.

Context (E : Env) (headers : Headers) (sourceDfspId : JsStr).

Lemma hget_errorHeaders_source :
  hget (errorHeaders E headers sourceDfspId) "fspiop-source" =
  Some (Headers_FSPIOP_SWITCH_value (Enum E)).
Proof. unfold hget. by rewrite errorHeaders_source. Qed.

Lemma hget_errorHeaders_destination :
  hget (errorHeaders E headers sourceDfspId) "fspiop-destination" =
  sourceDfspId.
Proof. unfold hget. by rewrite errorHeaders_destination. Qed.

End ErrorHeadersRead.

(** X9. After a forwarding failure the error callback is addressed to the
    requester: the second endpoint lookup of the run asks for the
    error-callback endpoint of the original source participant, and, when
    it resolves and renders, the last outbound request is a PUT to that
    URL from the switch to the original source, carrying the reversed
    headers, the serialized normalized failure, and a span of its own
    (the header names of [Enum] being the ones the object literal
    spells out). *)
Theorem error_callback_is_addressed_to_the_requester
    E path headers id payload span (s : SpanStore) err closed :
  Headers_FSPIOP_SOURCE (Enum E) = "fspiop-source" →
  Headers_FSPIOP_DESTINATION (Enum E) = "fspiop-destination" →
  span ≠ Some SpanWithoutGetChild →
  forwardAttempt E path headers id payload = (Throw err, closed) →
  let r := forwardPostAuthorization E path headers id payload span s in
  let requester := hget headers "fspiop-source" in
  let errorEndpoint :=
    FspEndpointTypes_THIRDPARTY_CALLBACK_URL_TRANSACTION_REQUEST_AUTHORIZATIONS_PUT_ERROR (Enum E) in
  resolutions (calls r) =
    [EvGetEndpoint (ENDPOINT_SERVICE_URL (Config E))
       (hget headers "fspiop-destination")
       (FspEndpointTypes_THIRDPARTY_TRANSACTIONS_AUTHORIZATIONS_POST (Enum E));
     EvGetEndpoint (ENDPOINT_SERVICE_URL (Config E)) requester errorEndpoint] ∧
  ∀ endpoint url,
    getEndpoint E (ENDPOINT_SERVICE_URL (Config E)) requester errorEndpoint =
      Ok endpoint →
    render E
      (endpoint +:+
       FspEndpointTemplates_THIRDPARTY_TRANSACTION_REQUEST_AUTHORIZATIONS_PUT_ERROR (Enum E))
      id = Ok url →
    last (sends (calls r)) =
      Some (EvSendRequest url (errorHeaders E headers requester)
              (Some (Headers_FSPIOP_SWITCH_value (Enum E))) requester
              (RestMethods_PUT (Enum E))
              (ErrorBody
                 (toApiErrorObject E (ReformatFSPIOPError E err)
                    (includeCauseExtension (ERROR_HANDLING (Config E)))
                    (truncateExtensions (ERROR_HANDLING (Config E)))))
              (ResponseTypes_JSON (Enum E)) (S <$> childOf span s)).
Proof.
  intros Hsrc Hdst Hspan Hfail r requester errorEndpoint.
  destruct (forwarder_run E path headers id payload span s Hspan)
    as (_ & _ & _ & Hsends & _).
  destruct (forwarder_trace E path headers id payload span s Hspan)
    as (Hres & _).
  fold r in Hsends, Hres. rewrite Hfail in Hsends, Hres.
  cbn [fst] in Hsends, Hres.
  unfold escalationHeaders in Hsends, Hres.
  unfold escalatorSends, sentBy, escalationPath, escalationBody in Hsends.
  rewrite Hsrc, Hdst in Hsends, Hres.
  rewrite hget_errorHeaders_destination in Hsends, Hres.
  rewrite hget_errorHeaders_source in Hsends.
  split; [exact Hres|].
  intros endpoint url Hge Hr. fold requester in Hsends.
  fold errorEndpoint in Hsends.
  rewrite Hsends, Hge, Hr. apply last_snoc.
Qed.

Lemma error_callback_is_addressed_to_the_requester_witness :
  let E := Sample.env false true false in
  let r := Sample.forward false true false in
  Headers_FSPIOP_SOURCE (Enum E) = "fspiop-source" ∧
  Headers_FSPIOP_DESTINATION (Enum E) = "fspiop-destination" ∧
  Some (SpanRef 0) ≠ Some SpanWithoutGetChild ∧
  forwardAttempt E Sample.path Sample.headers Sample.transactionRequestId
    Sample.payload = (Throw Sample.networkError, false) ∧
  resolutions (calls r) =
    [EvGetEndpoint "http://central-ledger" (Some "dfspA")
       "THIRDPARTY_TRANSACTIONS_AUTHORIZATIONS_POST";
     EvGetEndpoint "http://central-ledger" (Some "pispA")
       "THIRDPARTY_CALLBACK_URL_TRANSACTION_REQUEST_AUTHORIZATIONS_PUT_ERROR"] ∧
  last (sends (calls r)) =
    Some (EvSendRequest
            "http://pispA/thirdpartyRequests/transactions/a5bbfd51-d9fc-4084-961a-c2c2221a31e0/authorizations/error"
            (errorHeaders E Sample.headers (Some "pispA"))
            (Some "switch") (Some "pispA") "PUT"
            (ErrorBody {| errorCode := "2001";
                          errorDescription := "ECONNREFUSED";
                          extensionList := [] |})
            "json" (Some 2)).
Proof.
  cbv zeta. split; [reflexivity|]. split; [reflexivity|].
  split; [discriminate|]. split; [reflexivity|].
  destruct (error_callback_is_addressed_to_the_requester
              (Sample.env false true false)
              Sample.path Sample.headers Sample.transactionRequestId
              Sample.payload (Some (SpanRef 0)) Sample.inbound
              Sample.networkError false eq_refl eq_refl
              ltac:(discriminate) eq_refl) as [Hres Hlast].
  split; [exact Hres|].
  exact (Hlast "http://pispA"
           (render_literal
              ("http://pispA" +:+
               "/thirdpartyRequests/transactions/{ID}/authorizations/error")
              Sample.transactionRequestId)
           eq_refl eq_refl).
Defined.

(** ** Requests that lack a routing header *)

(** X10. The Forwarder does not check that the destination header is
    there: when it is missing, the first thing the run does is still an
    endpoint lookup, made for [undefined] as the participant. *)
Theorem missing_destination_is_looked_up_as_undefined
    E path headers id payload span (s : SpanStore) :
  span ≠ Some SpanWithoutGetChild →
  headers !! Headers_FSPIOP_DESTINATION (Enum E) = None →
  head (resolutions
          (calls (forwardPostAuthorization E path headers id payload
                    span s))) =
    Some (EvGetEndpoint (ENDPOINT_SERVICE_URL (Config E)) None
            (FspEndpointTypes_THIRDPARTY_TRANSACTIONS_AUTHORIZATIONS_POST (Enum E))).
Proof.
  intros Hspan Hmissing.
  destruct (forwarder_trace E path headers id payload span s Hspan)
    as (-> & _).
  unfold hget. by rewrite Hmissing.
Qed.

Lemma missing_destination_is_looked_up_as_undefined_witness :
  let E := Sample.env true true false in
  let r := forwardPostAuthorization E Sample.path Edge.noDestination
             Sample.transactionRequestId Sample.payload (Some (SpanRef 0))
             Sample.inbound in
  Some (SpanRef 0) ≠ Some SpanWithoutGetChild ∧
  Edge.noDestination !! Headers_FSPIOP_DESTINATION (Enum E) = None ∧
  head (resolutions (calls r)) =
    Some (EvGetEndpoint "http://central-ledger" None
            "THIRDPARTY_TRANSACTIONS_AUTHORIZATIONS_POST") ∧
  length (sends (calls r)) = 1.
Proof.
  cbv zeta. split; [discriminate|]. split; [reflexivity|].
  split; [|reflexivity].
  exact (missing_destination_is_looked_up_as_undefined
           (Sample.env true true false) Sample.path Edge.noDestination
           Sample.transactionRequestId Sample.payload (Some (SpanRef 0))
           Sample.inbound ltac:(discriminate) eq_refl).
Defined.

(** X11. Nor does it check the source header: when it is missing and the
    forward fails, the escalation still takes place, with
    [fspiop-destination] present in its headers and holding [undefined],
    and the error-callback endpoint is looked up for [undefined] as the
    participant (the header names of [Enum] being the ones the object
    literal spells out). *)
Theorem missing_source_escalates_to_undefined
    E path headers id payload span (s : SpanStore) err closed :
  Headers_FSPIOP_SOURCE (Enum E) = "fspiop-source" →
  Headers_FSPIOP_DESTINATION (Enum E) = "fspiop-destination" →
  span ≠ Some SpanWithoutGetChild →
  headers !! "fspiop-source" = None →
  forwardAttempt E path headers id payload = (Throw err, closed) →
  let r := forwardPostAuthorization E path headers id payload span s in
  (∃ (h : Headers) body sp,
     escalations (calls r) =
       [EvEscalate
          (FspEndpointTemplates_THIRDPARTY_TRANSACTION_REQUEST_AUTHORIZATIONS_PUT_ERROR (Enum E))
          h id body sp] ∧
     h !! "fspiop-destination" = Some None) ∧
  last (resolutions (calls r)) =
    Some (EvGetEndpoint (ENDPOINT_SERVICE_URL (Config E)) None
            (FspEndpointTypes_THIRDPARTY_CALLBACK_URL_TRANSACTION_REQUEST_AUTHORIZATIONS_PUT_ERROR (Enum E))).
Proof.
  intros Hsrc Hdst Hspan Hmissing Hfail r.
  destruct (forwarder_run E path headers id payload span s Hspan)
    as (_ & _ & Hesc & _).
  destruct (forwarder_trace E path headers id payload span s Hspan)
    as (Hres & _).
  fold r in Hesc, Hres. rewrite Hfail in Hesc, Hres.
  cbn [fst] in Hesc, Hres.
  assert (hget headers (Headers_FSPIOP_SOURCE (Enum E)) = None) as Hnone.
  { unfold hget. by rewrite Hsrc, Hmissing. }
  split.
  - eexists _, _, _. split; [exact Hesc|].
    unfold escalationHeaders. by rewrite errorHeaders_destination, Hnone.
  - rewrite Hres. unfold escalationHeaders.
    by rewrite Hdst, hget_errorHeaders_destination, Hnone.
Qed.

Lemma missing_source_escalates_to_undefined_witness :
  let E := Sample.env false true false in
  let r := forwardPostAuthorization E Sample.path Edge.noSource
             Sample.transactionRequestId Sample.payload (Some (SpanRef 0))
             Sample.inbound in
  Headers_FSPIOP_SOURCE (Enum E) = "fspiop-source" ∧
  Headers_FSPIOP_DESTINATION (Enum E) = "fspiop-destination" ∧
  Some (SpanRef 0) ≠ Some SpanWithoutGetChild ∧
  Edge.noSource !! "fspiop-source" = None ∧
  forwardAttempt E Sample.path Edge.noSource Sample.transactionRequestId
    Sample.payload = (Throw Sample.networkError, false) ∧
  (∃ (h : Headers) body sp,
     escalations (calls r) =
       [EvEscalate
          "/thirdpartyRequests/transactions/{ID}/authorizations/error"
          h Sample.transactionRequestId body sp] ∧
     h !! "fspiop-destination" = Some None) ∧
  last (resolutions (calls r)) =
    Some (EvGetEndpoint "http://central-ledger" None
            "THIRDPARTY_CALLBACK_URL_TRANSACTION_REQUEST_AUTHORIZATIONS_PUT_ERROR").
Proof.
  cbv zeta. split; [reflexivity|]. split; [reflexivity|].
  split; [discriminate|]. split; [reflexivity|]. split; [reflexivity|].
  exact (missing_source_escalates_to_undefined
           (Sample.env false true false) Sample.path Edge.noSource
           Sample.transactionRequestId Sample.payload (Some (SpanRef 0))
           Sample.inbound Sample.networkError false eq_refl eq_refl
           ltac:(discriminate) eq_refl eq_refl).
Defined.

(** ** The order of the steps, and what is logged *)

(** X12. A hop takes its steps in order and at most once each: in any run
    of the Error Escalator entered with an absent or well-formed span,
    the lookup comes before the rendering, the
    rendering before the request, the request before the finishing of the
    span, and there is exactly one lookup, made at the configured
    directory for the destination of the headers received; a Forwarder
    run makes one lookup when it succeeds and two when it fails, nothing
    being kept from one to the next. *)
Theorem steps_are_taken_in_order
    E path headers id authorization payload span (s : SpanStore) :
  span ≠ Some SpanWithoutGetChild →
  let r := forwardPostAuthorization E path headers id authorization span s in
  let r' := forwardPostAuthorizationError E path headers id payload span s in
  StronglySorted lt (stages (calls r')) ∧
  resolutions (calls r') =
    [EvGetEndpoint (ENDPOINT_SERVICE_URL (Config E))
       (hget headers (Headers_FSPIOP_DESTINATION (Enum E)))
       (FspEndpointTypes_THIRDPARTY_CALLBACK_URL_TRANSACTION_REQUEST_AUTHORIZATIONS_PUT_ERROR (Enum E))] ∧
  length (resolutions (calls r)) =
    (if is_ok (forwardAttempt E path headers id authorization).1
     then 1 else 2).
Proof.
  intros Hspan r r'.
  destruct (escalator_trace E path headers id payload span s Hspan)
    as (Hres' & Hord & _).
  destruct (forwarder_trace E path headers id authorization span s Hspan)
    as (Hres & _).
  split; [exact Hord|]. split; [exact Hres'|].
  fold r in Hres. rewrite Hres.
  by destruct (forwardAttempt E path headers id authorization).1.
Qed.

Lemma steps_are_taken_in_order_witness :
  let E := Sample.env false true false in
  let path := "/thirdpartyRequests/transactions/{ID}/authorizations/error" in
  let payload :=
    ErrorBody {| errorCode := "2001"; errorDescription := "ECONNREFUSED";
                 extensionList := [] |} in
  let r := Sample.forward false true false in
  let r' := forwardPostAuthorizationError E path Sample.headers
              Sample.transactionRequestId payload (Some (SpanRef 0))
              Sample.inbound in
  Some (SpanRef 0) ≠ Some SpanWithoutGetChild ∧
  StronglySorted lt (stages (calls r')) ∧
  stages (calls r') = [0; 1; 2; 3] ∧
  length (resolutions (calls r')) = 1 ∧
  length (resolutions (calls r)) = 2.
Proof.
  cbv zeta. split; [discriminate|].
  destruct (steps_are_taken_in_order (Sample.env false true false)
              Sample.path Sample.headers Sample.transactionRequestId
              Sample.payload
              (ErrorBody {| errorCode := "2001";
                            errorDescription := "ECONNREFUSED";
                            extensionList := [] |})
              (Some (SpanRef 0)) Sample.inbound ltac:(discriminate))
    as (_ & _ & Hres).
  destruct (steps_are_taken_in_order (Sample.env false true false)
              "/thirdpartyRequests/transactions/{ID}/authorizations/error"
              Sample.headers Sample.transactionRequestId
              Sample.payload
              (ErrorBody {| errorCode := "2001";
                            errorDescription := "ECONNREFUSED";
                            extensionList := [] |})
              (Some (SpanRef 0)) Sample.inbound ltac:(discriminate))
    as (Hord & _ & _).
  split; [exact Hord|]. split; [reflexivity|]. split; [reflexivity|].
  exact Hres.
Defined.

(** X13. [Logger.error] is called once in each catch block that is
    entered and nowhere else: a Forwarder run logs no error when it
    succeeds, one when the forward fails and the escalation succeeds, two
    when the escalation fails as well; an Error Escalator run logs one
    exactly when it fails. *)
Theorem one_error_is_logged_per_catch_block
    E path headers id authorization payload span (s : SpanStore) :
  span ≠ Some SpanWithoutGetChild →
  let r := forwardPostAuthorization E path headers id authorization span s in
  let r' := forwardPostAuthorizationError E path headers id payload span s in
  length (errorsLogged (calls r)) =
    match (forwardAttempt E path headers id authorization).1 with
    | Ok _ => 0
    | Throw err =>
        if is_ok (escalationAttempt E headers id err).1 then 1 else 2
    end ∧
  length (errorsLogged (calls r')) =
    (if is_ok (escalateAttempt E path headers id payload).1 then 0 else 1).
Proof.
  intros Hspan r r'.
  destruct (escalator_trace E path headers id payload span s Hspan)
    as (_ & _ & Herr' & _).
  destruct (forwarder_trace E path headers id authorization span s Hspan)
    as (_ & _ & Herr & _).
  by split.
Qed.

Lemma one_error_is_logged_per_catch_block_witness :
  Some (SpanRef 0) ≠ Some SpanWithoutGetChild ∧
  length (errorsLogged (calls (Sample.forward true true false))) = 0 ∧
  length (errorsLogged (calls (Sample.forward false true false))) = 1 ∧
  length (errorsLogged (calls (Sample.forward false false false))) = 2.
Proof.
  split; [discriminate|].
  pose (body := ErrorBody {| errorCode := "2001"; errorDescription := "x";
                             extensionList := [] |}).
  split; [|split].
  - exact (proj1 (one_error_is_logged_per_catch_block
                    (Sample.env true true false) Sample.path Sample.headers
                    Sample.transactionRequestId Sample.payload body
                    (Some (SpanRef 0)) Sample.inbound ltac:(discriminate))).
  - exact (proj1 (one_error_is_logged_per_catch_block
                    (Sample.env false true false) Sample.path Sample.headers
                    Sample.transactionRequestId Sample.payload body
                    (Some (SpanRef 0)) Sample.inbound ltac:(discriminate))).
  - exact (proj1 (one_error_is_logged_per_catch_block
                    (Sample.env false false false) Sample.path Sample.headers
                    Sample.transactionRequestId Sample.payload body
                    (Some (SpanRef 0)) Sample.inbound ltac:(discriminate))).
Defined.

(** ** Runs without a span *)

Lemma forwarder_without_span_finishes_nothing
    E path headers id payload (s : SpanStore) c :
  finishes c (calls (forwardPostAuthorization E path headers id payload
                       None s)) = [].
Proof.
  unfold forwardPostAuthorization. unfold_run.
  run.
  all: try escalate_traced.
  all: try match goal with
       | |- context [escalateAttempt ?E ?p ?h ?i ?b] =>
           destruct (escalateAttempt E p h i b) as [[[]|?] []]
       end.
  all: unfold normalized, escalatorSpans; run.
  all: try done.
  all: rewrite ?List.filter_app; cbn; rewrite ?app_nil_r.
  all: apply nil_length_inv;
    match goal with
    | H : ∀ c, length (finishes c _) = _ |- _ => apply (H c)
    end.
Qed.

(** X14. When no span is passed, neither operation creates or finishes
    one: the store is left as it was, no [finish] call is made, every
    outbound request goes out without a span, and the escalation after a
    failed forward is not given one either. *)
Theorem no_span_in_no_span_out
    E path headers id authorization payload (s : SpanStore) :
  let r := forwardPostAuthorization E path headers id authorization None s in
  let r' := forwardPostAuthorizationError E path headers id payload None s in
  store r = s ∧ store r' = s ∧
  (∀ c, finishes c (calls r') = []) ∧
  (∀ c, finishes c (calls r) = []) ∧
  Forall (λ e, carried_span e = None) (sends (calls r)) ∧
  Forall (λ e, carried_span e = None) (sends (calls r')) ∧
  Forall (λ e, ∃ p h i b, e = EvEscalate p h i b None)
    (escalations (calls r)).
Proof.
  intros r r'.
  destruct (forwarder_run E path headers id authorization None s)
    as (_ & Hstore & Hesc & Hsends & _); [done|].
  destruct (escalator_run E path headers id payload None s)
    as (_ & Hstore' & _ & Hsends' & _); [done|].
  destruct (escalator_trace E path headers id payload None s)
    as (_ & _ & _ & Hfin'); [done|].
  fold r in Hstore, Hesc, Hsends.
  fold r' in Hstore', Hsends', Hfin'.
  cbn [childOf forwarderSpans escalatorSpans fmap option_fmap option_map]
    in *.
  rewrite app_nil_r in Hstore, Hstore'.
  split; [exact Hstore|]. split; [exact Hstore'|].
  split; [intros c; by apply nil_length_inv|].
  split; [intros c; apply forwarder_without_span_finishes_nothing|].
  rewrite Hsends, Hsends', Hesc.
  unfold forwarderSends, escalatorSends, sentBy.
  split; [|split].
  - apply Forall_app. split; repeat case_match; by repeat constructor.
  - repeat case_match; by repeat constructor.
  - case_match; repeat constructor. by eexists _, _, _, _.
Qed.

(** ** The URL handed to the sender *)

Lemma escalator_renders E path headers id payload span s :
  span ≠ Some SpanWithoutGetChild →
  renders (calls (forwardPostAuthorizationError E path headers id payload
                    span s)) =
    renderedBy E
      (FspEndpointTypes_THIRDPARTY_CALLBACK_URL_TRANSACTION_REQUEST_AUTHORIZATIONS_PUT_ERROR (Enum E))
      path headers id.
Proof.
  intros Hspan.
  unfold forwardPostAuthorizationError, renderedBy, renders. unfold_run.
  destruct span as [[|p]|]; [done| |]; by run.
Qed.

Ltac escalate_rendered :=
  match goal with
  | |- context [forwardPostAuthorizationError ?E ?p ?h ?i ?b ?sp ?s] =>
      let H := fresh "Hrun" in
      let H' := fresh "Hrenders" in
      pose proof (escalator_run E p h i b sp s ltac:(done)) as H;
      pose proof (escalator_renders E p h i b sp s ltac:(done)) as H';
      cbv zeta in H; unfold outcome, store, calls, renders in H, H';
      destruct (forwardPostAuthorizationError E p h i b sp s) as [[? ?] ?];
      cbn [fst snd] in H, H';
      destruct H as (-> & -> & _)
  end.

Lemma forwarder_renders E path headers id payload span s :
  span ≠ Some SpanWithoutGetChild →
  renders (calls (forwardPostAuthorization E path headers id payload
                    span s)) =
    renderedBy E
      (FspEndpointTypes_THIRDPARTY_TRANSACTIONS_AUTHORIZATIONS_POST (Enum E))
      path headers id ++
    match (forwardAttempt E path headers id payload).1 with
    | Ok _ => []
    | Throw err =>
        renderedBy E
          (FspEndpointTypes_THIRDPARTY_CALLBACK_URL_TRANSACTION_REQUEST_AUTHORIZATIONS_PUT_ERROR (Enum E))
          (escalationPath E) (escalationHeaders E headers) id
    end.
Proof.
  intros Hspan.
  unfold forwardPostAuthorization, forwardAttempt, escalationHeaders,
    escalationPath, renders.
  unfold renderedBy at 1. unfold_run.
  destruct span as [[|p]|]; [done| |]; run.
  all: try escalate_rendered.
  all: try match goal with
       | |- context [escalateAttempt ?E ?p ?h ?i ?b] =>
           destruct (escalateAttempt E p h i b) as [[[]|?] []]
       end.
  all: unfold normalized, escalatorSpans, errorStatus; rewrite <- ?app_assoc; run.
  all: rewrite ?List.filter_app; cbn.
  all: repeat match goal with
         | H : List.filter is_render ?l = _ |- _ => rewrite H; clear H
         end.
  all: by rewrite ?app_nil_r.
Qed.

(** C8, as the code has it. Whenever the endpoint is resolved and the
    rendering returns, the renderer has been called with the resolved
    base URL followed by the path template and with the transaction
    request id, and the URL of the outbound request is the string the
    renderer returned, unchanged: in the escalator (its only rendering
    and only request) and in the forwarder (its first ones). *)
Theorem sent_url_is_what_the_renderer_returned
    E path headers id span (s : SpanStore) endpoint url :
  span ≠ Some SpanWithoutGetChild →
  render E (endpoint +:+ path) id = Ok url →
  (∀ payload,
     getEndpoint E (ENDPOINT_SERVICE_URL (Config E))
       (hget headers (Headers_FSPIOP_DESTINATION (Enum E)))
       (FspEndpointTypes_THIRDPARTY_CALLBACK_URL_TRANSACTION_REQUEST_AUTHORIZATIONS_PUT_ERROR (Enum E)) =
       Ok endpoint →
     let r := forwardPostAuthorizationError E path headers id payload
                span s in
     renders (calls r) = [EvRender (endpoint +:+ path) id] ∧
     sends (calls r) =
       [EvSendRequest url headers
          (hget headers (Headers_FSPIOP_SOURCE (Enum E)))
          (hget headers (Headers_FSPIOP_DESTINATION (Enum E)))
          (RestMethods_PUT (Enum E)) payload (ResponseTypes_JSON (Enum E))
          (childOf span s)]) ∧
  (∀ payload,
     getEndpoint E (ENDPOINT_SERVICE_URL (Config E))
       (hget headers (Headers_FSPIOP_DESTINATION (Enum E)))
       (FspEndpointTypes_THIRDPARTY_TRANSACTIONS_AUTHORIZATIONS_POST (Enum E)) =
       Ok endpoint →
     let r := forwardPostAuthorization E path headers id payload span s in
     head (renders (calls r)) = Some (EvRender (endpoint +:+ path) id) ∧
     head (sends (calls r)) =
       Some (EvSendRequest url headers
               (hget headers (Headers_FSPIOP_SOURCE (Enum E)))
               (hget headers (Headers_FSPIOP_DESTINATION (Enum E)))
               (RestMethods_POST (Enum E)) (AuthorizationBody payload)
               (ResponseTypes_JSON (Enum E)) (childOf span s))).
Proof.
  intros Hspan Hr. split.
  - intros payload Hge r.
    destruct (escalator_run E path headers id payload span s Hspan)
      as (_ & _ & _ & Hsends & _).
    fold r in Hsends. subst r.
    rewrite Hsends, escalator_renders by done.
    unfold escalatorSends, sentBy, renderedBy. by rewrite Hge, Hr.
  - intros payload Hge r.
    destruct (forwarder_run E path headers id payload span s Hspan)
      as (_ & _ & _ & Hsends & _).
    fold r in Hsends. subst r.
    rewrite Hsends, forwarder_renders by done.
    unfold forwarderSends, sentBy, renderedBy. by rewrite Hge, Hr.
Qed.

Lemma sent_url_is_what_the_renderer_returned_witness :
  let E := Tagged.env in
  let url :=
    "http://dfspA/thirdpartyRequests/transactions/a5bbfd51-d9fc-4084-961a-c2c2221a31e0/authorizations" in
  let r := forwardPostAuthorization E Tagged.path Sample.headers
             Sample.transactionRequestId Sample.payload (Some (SpanRef 0))
             Sample.inbound in
  Some (SpanRef 0) ≠ Some SpanWithoutGetChild ∧
  render E ("http://dfspA" +:+ Tagged.path) Sample.transactionRequestId =
    Ok url ∧
  getEndpoint E "http://central-ledger" (Some "dfspA")
    "THIRDPARTY_TRANSACTIONS_AUTHORIZATIONS_POST" = Ok "http://dfspA" ∧
  head (renders (calls r)) =
    Some (EvRender
            "http://dfspA/thirdpartyRequests/transactions/{{ID}}/authorizations"
            Sample.transactionRequestId) ∧
  head (sends (calls r)) =
    Some (EvSendRequest url Sample.headers (Some "pispA") (Some "dfspA")
            "POST" (AuthorizationBody Sample.payload) "json" (Some 1)).
Proof.
  cbv zeta. split; [discriminate|]. split; [reflexivity|].
  split; [reflexivity|].
  exact (proj2 (sent_url_is_what_the_renderer_returned Tagged.env
                  Tagged.path Sample.headers Sample.transactionRequestId
                  (Some (SpanRef 0)) Sample.inbound "http://dfspA"
                  "http://dfspA/thirdpartyRequests/transactions/a5bbfd51-d9fc-4084-961a-c2c2221a31e0/authorizations"
                  ltac:(discriminate) eq_refl)
           Sample.payload eq_refl).
Defined.

(** C8, as it is stated, fails. With a renderer that fills the tag
    [{{ID}}], the endpoint of dfspA resolves and the request goes to the
    URL with the id in the place of the tag, which is not the literal
    substitution for [{ID}]: that one leaves a brace on each side of the
    id.  On a template written with [{ID}] the same renderer substitutes
    nothing, and the request goes to a URL that still holds [{ID}]. *)
Lemma sent_url_is_not_the_literal_substitution :
  let E := Tagged.env in
  let id := Sample.transactionRequestId in
  let sent path :=
    head (sends (calls (forwardPostAuthorization E path Sample.headers id
                          Sample.payload None []))) in
  getEndpoint E "http://central-ledger" (Some "dfspA")
    "THIRDPARTY_TRANSACTIONS_AUTHORIZATIONS_POST" = Ok "http://dfspA" ∧
  sent Tagged.path =
    Some (EvSendRequest
            "http://dfspA/thirdpartyRequests/transactions/a5bbfd51-d9fc-4084-961a-c2c2221a31e0/authorizations"
            Sample.headers (Some "pispA") (Some "dfspA") "POST"
            (AuthorizationBody Sample.payload) "json" None) ∧
  render_literal ("http://dfspA" +:+ Tagged.path) id =
    "http://dfspA/thirdpartyRequests/transactions/{a5bbfd51-d9fc-4084-961a-c2c2221a31e0}/authorizations" ∧
  sent Sample.path =
    Some (EvSendRequest
            "http://dfspA/thirdpartyRequests/transactions/{ID}/authorizations"
            Sample.headers (Some "pispA") (Some "dfspA") "POST"
            (AuthorizationBody Sample.payload) "json" None) ∧
  render_literal ("http://dfspA" +:+ Sample.path) id =
    "http://dfspA/thirdpartyRequests/transactions/a5bbfd51-d9fc-4084-961a-c2c2221a31e0/authorizations" ∧
  (∀ path, path = Tagged.path ∨ path = Sample.path →
     sent path ≠
       Some (EvSendRequest (render_literal ("http://dfspA" +:+ path) id)
               Sample.headers (Some "pispA") (Some "dfspA") "POST"
               (AuthorizationBody Sample.payload) "json" None)).
Proof.
  cbv zeta. repeat (split; [reflexivity|]).
  intros path [->| ->]; vm_compute; discriminate.
Qed.
